(** * byFood library service: the book CRUD pipeline

    A shallow embedding of the backend's core path
    (entities -> use cases -> PostgreSQL repository -> HTTP handler)
    together with the properties stated about it.

    Conventions of the embedding.
    - A Go [string] is the sequence of runes (Unicode code points) obtained by
      ranging over it; [strings.TrimSpace] and the comparison with the empty
      string only depend on that sequence.  Strings are valid UTF-8, as
      [encoding/json] delivers them, so that a rune is a character of the
      store.
    - A Go [(T, error)] result is a [result T]; a lone [error] is an
      [option error] with [None] for [nil].
    - [uuid.UUID] is the 128-bit value as an [N]; [time.Time] and SQL
      timestamps are instants on a discrete time line ([Z]).
    - The [books] table is a finite map from the primary key [id] to the other
      columns.  Everything the store decides on its own (the clock, the
      generated uuid, whether and where the driver call fails, and whether a
      failed call had been carried out) is an explicit input of each
      statement, see [StmtEnv].  The column types of init.sql are
      interpreted: a text value goes through VARCHAR(255), a year through
      INTEGER, and a value the column refuses makes the statement fail.
    - Logging through [zap] has no influence on results and is left out. *)

From stdpp Require Import base option list gmap sorting strings.
From Stdlib Require Import ZArith Lia.

Local Open Scope Z_scope.

(** ** Go strings *)

Definition rune := Z.
Abbreviation gostring := (list rune).

(** The runes of an ASCII literal, to write examples. *)
Fixpoint runes (s : string) : gostring :=
  match s with
  | EmptyString => []
  | String c s' => Z.of_nat (Ascii.nat_of_ascii c) :: runes s'
  end.

Module unicode.

(** [unicode.IsSpace]: the Latin-1 cases of the switch, then the
    [White_Space] range table. *)
Definition IsSpace (r : rune) : bool :=
  if (0 <=? r) && (r <=? 255) then
    (r =? 9) || (r =? 10) || (r =? 11) || (r =? 12) || (r =? 13)
    || (r =? 32) || (r =? 133) || (r =? 160)
  else
    (r =? 5760) || ((8192 <=? r) && (r <=? 8202))
    || (r =? 8232) || (r =? 8233) || (r =? 8239) || (r =? 8287)
    || (r =? 12288).

End unicode.

Module strings.

(** [strings.TrimLeftFunc]: drop the leading runes satisfying [f]. *)
Fixpoint TrimLeftFunc (f : rune -> bool) (s : gostring) : gostring :=
  match s with
  | [] => []
  | r :: s' => if f r then TrimLeftFunc f s' else s
  end.

(** [strings.TrimRightFunc]: the same from the end of the string. *)
Definition TrimRightFunc (f : rune -> bool) (s : gostring) : gostring :=
  rev (TrimLeftFunc f (rev s)).

(** [strings.TrimFunc(s, f) = TrimRightFunc(TrimLeftFunc(s, f), f)]. *)
Definition TrimFunc (f : rune -> bool) (s : gostring) : gostring :=
  TrimRightFunc f (TrimLeftFunc f s).

Definition TrimSpace (s : gostring) : gostring :=
  TrimFunc unicode.IsSpace s.

End strings.

(** [s == ""] *)
Definition is_empty (s : gostring) : bool :=
  match s with [] => true | _ :: _ => false end.

(** ** internal/domain/entities *)

Definition UUID := N.
Definition Time := Z.

Module entities.

(** errors.go *)
Inductive error : Set :=
| ErrBookNotFound
| ErrInvalidTitle
| ErrInvalidAuthor
| ErrInvalidYear
| ErrDatabaseError
| ErrInvalidUUID.

(** [err.Error()] *)
Definition Error (e : error) : string :=
  match e with
  | ErrBookNotFound => "book not found"
  | ErrInvalidTitle => "title cannot be empty"
  | ErrInvalidAuthor => "author cannot be empty"
  | ErrInvalidYear => "year must be between 1000 and 2034"
  | ErrDatabaseError => "database operation failed"
  | ErrInvalidUUID => "invalid UUID format"
  end.

#[global] Instance error_eq_dec : EqDecision error.
Proof. solve_decision. Defined.

Inductive result (A : Type) : Type :=
| Ok (a : A)
| Err (e : error).
Arguments Ok {A} a.
Arguments Err {A} e.

Record Book : Type := mkBook {
  ID : UUID;
  Title : gostring;
  Author : gostring;
  Year : Z;
  CreatedAt : Time;
  UpdatedAt : Time
}.

(** The zero value of the struct ([var b entities.Book]). *)
Definition zero_Book : Book := mkBook 0%N [] [] 0 0 0.

Module CreateBookDTO.
Record t : Type := mk { Title : gostring; Author : gostring; Year : Z }.

Definition Validate (dto : t) : option error :=
  if is_empty (strings.TrimSpace (Title dto)) then Some ErrInvalidTitle
  else if is_empty (strings.TrimSpace (Author dto)) then Some ErrInvalidAuthor
  else if (Year dto <? 1000) || (Year dto >? 2034) then Some ErrInvalidYear
  else None.

(** [uuid.New()] is the argument [new_uuid]. *)
Definition ToBook (new_uuid : UUID) (dto : t) : Book :=
  {| ID := new_uuid;
     entities.Title := strings.TrimSpace (Title dto);
     entities.Author := strings.TrimSpace (Author dto);
     entities.Year := Year dto;
     CreatedAt := 0;
     UpdatedAt := 0 |}.
End CreateBookDTO.

Module UpdateBookDTO.
Record t : Type := mk { Title : gostring; Author : gostring; Year : Z }.

Definition Validate (dto : t) : option error :=
  if is_empty (strings.TrimSpace (Title dto)) then Some ErrInvalidTitle
  else if is_empty (strings.TrimSpace (Author dto)) then Some ErrInvalidAuthor
  else if (Year dto <? 1000) || (Year dto >? 2034) then Some ErrInvalidYear
  else None.
End UpdateBookDTO.

(** [Book.ValidateBookData]: no trimming here. *)
Definition ValidateBookData (b : Book) : option error :=
  if is_empty (Title b) then Some ErrInvalidTitle
  else if is_empty (Author b) then Some ErrInvalidAuthor
  else if (Year b <? 1000) || (Year b >? 2034) then Some ErrInvalidYear
  else None.

End entities.
Export entities.

(** ** The store: schema, trigger and statements of init.sql and the repository *)

Module database.

(** The columns of [books] other than the primary key. *)
Record row : Type := mkRow {
  title : gostring;
  author : gostring;
  year : Z;
  created_at : Time;
  updated_at : Time
}.

(** [CREATE TABLE books (id UUID PRIMARY KEY, ...)] *)
Abbreviation table := (gmap UUID row).

(** Where a driver call goes wrong, if it does. *)
Inductive Fault : Set :=
| NoFault
| FailCall    (** the call itself returns an error: connection lost, timeout,
                  cancellation; see [applied] *)
| FailResult  (** the statement has had its effect, its result cannot be read
                  ([rows.Next()] is false, [RowsAffected] fails) *)
| FailScan.   (** the statement has had its effect and scanning the delivered
                  row fails *)

#[global] Instance Fault_eq_dec : EqDecision Fault.
Proof. solve_decision. Defined.

(** What the store contributes to one statement. *)
Record StmtEnv : Type := mkStmtEnv {
  now : Time;               (** [CURRENT_TIMESTAMP] *)
  uuid_generate_v4 : UUID;  (** the [DEFAULT] of [id] *)
  fault : Fault;
  applied : bool            (** when the call itself fails: whether the server
                                had carried the statement out before the error
                                came back *)
}.

(** A store whose failing calls leave the statement undone. *)
Abbreviation mkEnv clock id f := (mkStmtEnv clock id f false).

Definition to_Book (id : UUID) (r : row) : Book :=
  mkBook id (title r) (author r) (year r) (created_at r) (updated_at r).

Definition books_of (t : table) : list Book :=
  (fun kv => to_Book kv.1 kv.2) <$> map_to_list t.

(** [update_updated_at_column()], the [BEFORE UPDATE] trigger. *)
Definition update_updated_at_column (e : StmtEnv) (NEW : row) : row :=
  mkRow (title NEW) (author NEW) (year NEW) (created_at NEW) (now e).

(** [VARCHAR(n)]: the value the column takes for the text [s], [None] when
    the store refuses it.  Text cannot hold U+0000.  A value of at most [n]
    characters is stored as it is; a longer one is refused, unless the
    characters beyond the first [n] are all spaces (U+0020), in which case it
    is cut to its first [n] characters without an error. *)
Definition varchar (n : nat) (s : gostring) : option gostring :=
  if existsb (Z.eqb 0) s then None
  else if (length s <=? n)%nat then Some s
  else if forallb (Z.eqb 32) (drop n s) then Some (take n s)
  else None.

(** [INTEGER]: four bytes, signed. *)
Definition integer (y : Z) : option Z :=
  if (-2147483648 <=? y) && (y <=? 2147483647) then Some y else None.

(** The parameters [:title], [:author] and [:year] as the columns
    [title VARCHAR(255)], [author VARCHAR(255)] and [year INTEGER] take
    them. *)
Definition columns (b : Book) : option (gostring * gostring * Z) :=
  match varchar 255 (Title b), varchar 255 (Author b), integer (Year b) with
  | Some ti, Some au, Some y => Some (ti, au, y)
  | _, _, _ => None
  end.

(** [INSERT INTO books (title, author, year) VALUES (:title, :author, :year)
     RETURNING id, title, author, year, created_at, updated_at].
    [None] is an error of the statement: a value a column refuses, or the
    unique violation on the primary key. *)
Definition insert_returning (e : StmtEnv) (b : Book) (t : table)
  : option (list Book * table) :=
  let id := uuid_generate_v4 e in
  match columns b with
  | None => None
  | Some (ti, au, y) =>
      match t !! id with
      | Some _ => None
      | None =>
          let r := mkRow ti au y (now e) (now e) in
          Some ([to_Book id r], <[id := r]> t)
      end
  end.

(** [UPDATE books SET title = :title, author = :author, year = :year
     WHERE id = :id RETURNING ...], with the trigger applied to the new row.
    [None] is an error of the statement: a value a column refuses (the
    parameters are converted when the statement is bound, whether or not a
    row matches). *)
Definition update_returning (e : StmtEnv) (b : Book) (t : table)
  : option (list Book * table) :=
  match columns b with
  | None => None
  | Some (ti, au, y) =>
      Some (match t !! ID b with
            | None => ([], t)
            | Some old =>
                let NEW := mkRow ti au y (created_at old) (updated_at old) in
                let r := update_updated_at_column e NEW in
                ([to_Book (ID b) r], <[ID b := r]> t)
            end)
  end.

(** [SELECT ... FROM books WHERE id = $1] *)
Definition select_by_id (id : UUID) (t : table) : list Book :=
  match t !! id with
  | None => []
  | Some r => [to_Book id r]
  end.

(** [r1] may precede [r2] under [ORDER BY created_at DESC]. *)
Definition created_at_desc (b1 b2 : Book) : Prop :=
  CreatedAt b2 <= CreatedAt b1.

#[global] Instance created_at_desc_dec b1 b2 : Decision (created_at_desc b1 b2).
Proof. unfold created_at_desc. apply _. Defined.

(** [SELECT ... FROM books ORDER BY created_at DESC] *)
Definition select_all_ordered (t : table) : list Book :=
  merge_sort created_at_desc (books_of t).

(** [DELETE FROM books WHERE id = $1]: rows affected and the new table. *)
Definition delete_by_id (id : UUID) (t : table) : Z * table :=
  match t !! id with
  | None => (0, t)
  | Some _ => (1, delete id t)
  end.

(** The rows of [INSERT INTO books (title, author, year) VALUES ...] at the end
    of init.sql, inserted at instant [clock]. *)
Definition sample_data (clock : Time) : list row :=
  [ mkRow (runes "The Go Programming Language") (runes "Alan Donovan") 2015 clock clock;
    mkRow (runes "Clean Code") (runes "Robert Martin") 2008 clock clock;
    mkRow (runes "Design Patterns") (runes "Gang of Four") 1994 clock clock ].

End database.
Export database.

(** ** database/sql and sqlx, as far as the repository uses them *)

Module sqlx.

(** Driver-level errors; the repository only tests them against [nil]. *)
Inductive dberror : Set :=
| ErrNoRows      (** [sql.ErrNoRows] *)
| ErrDriver.     (** connection, timeout, cancellation, constraint, scan *)

(** An open result set. *)
Record Rows : Type := mkRows {
  pending : list Book;
  scan_ok : bool
}.

Definition Next (rs : Rows) : bool :=
  match pending rs with [] => false | _ :: _ => true end.

(** [rows.StructScan(&dest)] on the current row; [dest] is written on success. *)
Definition StructScan (rs : Rows) : dberror + Book :=
  match pending rs with
  | b :: _ => if scan_ok rs then inr b else inl ErrDriver
  | [] => inl ErrDriver
  end.

(** [db.NamedQueryContext] for a statement whose effect is [run].  The call
    can return an error with the statement carried out or not; a statement
    that is itself in error changes nothing. *)
Definition NamedQueryContext (e : StmtEnv)
    (run : table -> option (list Book * table)) (t : table)
  : (dberror + Rows) * table :=
  match fault e with
  | FailCall =>
      (inl ErrDriver,
       if applied e then
         match run t with
         | None => t
         | Some (_, t') => t'
         end
       else t)
  | f =>
      match run t with
      | None => (inl ErrDriver, t)
      | Some (out, t') =>
          match f with
          | FailResult => (inr (mkRows [] true), t')
          | FailScan => (inr (mkRows out false), t')
          | _ => (inr (mkRows out true), t')
          end
      end
  end.

(** [db.GetContext(ctx, &dest, query, id)]: exactly one row is scanned. *)
Definition GetContext (e : StmtEnv) (out : list Book) : dberror + Book :=
  match fault e with
  | NoFault =>
      match out with
      | [] => inl ErrNoRows
      | b :: _ => inr b
      end
  | _ => inl ErrDriver
  end.

(** [db.SelectContext(ctx, &dest, query)] *)
Definition SelectContext (e : StmtEnv) (out : list Book) : dberror + list Book :=
  match fault e with
  | NoFault => inr out
  | _ => inl ErrDriver
  end.

(** [db.ExecContext] followed by [result.RowsAffected()]; nothing is scanned,
    so [FailScan] cannot show. *)
Definition ExecContext (e : StmtEnv) (run : table -> Z * table) (t : table)
  : (dberror + (dberror + Z)) * table :=
  match fault e with
  | FailCall => (inl ErrDriver, if applied e then (run t).2 else t)
  | FailResult => (inr (inl ErrDriver), (run t).2)
  | _ => (inr (inr (run t).1), (run t).2)
  end.

End sqlx.

(** ** internal/domain/repositories: the interface *)

(** A computation over a store of type [St]. *)
Definition M (St A : Type) : Type := St -> A * St.

Definition ret {St A} (a : A) : M St A := fun s => (a, s).
Definition bind {St A B} (m : M St A) (k : A -> M St B) : M St B :=
  fun s => let (a, s') := m s in k a s'.

Notation "'do' x <- m ; k" := (bind m (fun x => k))
  (at level 10, x name, m at level 100, k at level 200).

Record BookRepository (St : Type) : Type := mkRepo {
  Create : Book -> M St (result Book);
  GetByID : UUID -> M St (result Book);
  GetAll : M St (result (list Book));
  Update : UUID -> Book -> M St (result Book);
  Delete : UUID -> M St (option error)
}.
Arguments Create {St} _ _ _.
Arguments GetByID {St} _ _ _.
Arguments GetAll {St} _ _.
Arguments Update {St} _ _ _ _.
Arguments Delete {St} _ _ _.

(** ** internal/repositories: the PostgreSQL implementation *)

Module postgres.

Definition Create (e : StmtEnv) (book : Book) : M table (result Book) :=
  fun t =>
    let createdBook := zero_Book in
    match sqlx.NamedQueryContext e (insert_returning e book) t with
    | (inl _, t') => (Err ErrDatabaseError, t')
    | (inr rows, t') =>
        if sqlx.Next rows then
          match sqlx.StructScan rows with
          | inl _ => (Err ErrDatabaseError, t')
          | inr scanned => (Ok scanned, t')
          end
        else (Ok createdBook, t')
    end.

Definition GetByID (e : StmtEnv) (id : UUID) : M table (result Book) :=
  fun t =>
    match sqlx.GetContext e (select_by_id id t) with
    | inl _ => (Err ErrBookNotFound, t)
    | inr book => (Ok book, t)
    end.

Definition GetAll (e : StmtEnv) : M table (result (list Book)) :=
  fun t =>
    match sqlx.SelectContext e (select_all_ordered t) with
    | inl _ => (Err ErrDatabaseError, t)
    | inr books => (Ok books, t)
    end.

Definition Update (e : StmtEnv) (id : UUID) (book : Book) : M table (result Book) :=
  fun t =>
    (* book.ID = id *)
    let book := mkBook id (Title book) (Author book) (Year book)
                       (CreatedAt book) (UpdatedAt book) in
    match sqlx.NamedQueryContext e (update_returning e book) t with
    | (inl _, t') => (Err ErrDatabaseError, t')
    | (inr rows, t') =>
        if sqlx.Next rows then
          match sqlx.StructScan rows with
          | inl _ => (Err ErrDatabaseError, t')
          | inr updatedBook => (Ok updatedBook, t')
          end
        else (Err ErrBookNotFound, t')
    end.

Definition Delete (e : StmtEnv) (id : UUID) : M table (option error) :=
  fun t =>
    match sqlx.ExecContext e (delete_by_id id) t with
    | (inl _, t') => (Some ErrDatabaseError, t')
    | (inr (inl _), t') => (Some ErrDatabaseError, t')
    | (inr (inr rowsAffected), t') =>
        if rowsAffected =? 0 then (Some ErrBookNotFound, t')
        else (None, t')
    end.

(** [NewPostgresBookRepository]; [e] is what the store does during the call. *)
Definition NewPostgresBookRepository (e : StmtEnv) : BookRepository table :=
  mkRepo table (Create e) (GetByID e) (GetAll e) (Update e) (Delete e).

End postgres.

(** ** A recording repository (the mock of the unit tests) *)

Inductive RepoCall : Type :=
| CallCreate (book : Book)
| CallGetByID (id : UUID)
| CallGetAll
| CallUpdate (id : UUID) (book : Book)
| CallDelete (id : UUID).

Definition logged {St A} (c : RepoCall) (m : M St A) : M (St * list RepoCall) A :=
  fun '(s, log) => let (a, s') := m s in (a, (s', log ++ [c])).

(** Every call is appended to the log, then forwarded to [r]. *)
Definition traced {St} (r : BookRepository St) : BookRepository (St * list RepoCall) :=
  mkRepo _
    (fun b => logged (CallCreate b) (Create r b))
    (fun id => logged (CallGetByID id) (GetByID r id))
    (logged CallGetAll (GetAll r))
    (fun id b => logged (CallUpdate id b) (Update r id b))
    (fun id => logged (CallDelete id) (Delete r id)).

(** ** internal/usecases *)

Module usecases.
Section bookUseCase.
Context {St : Type} (bookRepo : BookRepository St).

Definition CreateBook (new_uuid : UUID) (dto : CreateBookDTO.t) : M St (result Book) :=
  match CreateBookDTO.Validate dto with
  | Some err => ret (Err err)
  | None =>
      let book := CreateBookDTO.ToBook new_uuid dto in
      do r <- Create bookRepo book;
      match r with
      | Err err => ret (Err err)
      | Ok createdBook => ret (Ok createdBook)
      end
  end.

Definition GetBookByID (id : UUID) : M St (result Book) :=
  do r <- GetByID bookRepo id;
  match r with
  | Err err => ret (Err err)
  | Ok book => ret (Ok book)
  end.

Definition GetAllBooks : M St (result (list Book)) :=
  do r <- GetAll bookRepo;
  match r with
  | Err err => ret (Err err)
  | Ok books => ret (Ok books)
  end.

Definition UpdateBook (id : UUID) (dto : UpdateBookDTO.t) : M St (result Book) :=
  match UpdateBookDTO.Validate dto with
  | Some err => ret (Err err)
  | None =>
      let book := mkBook 0%N (UpdateBookDTO.Title dto) (UpdateBookDTO.Author dto)
                         (UpdateBookDTO.Year dto) 0 0 in
      do r <- Update bookRepo id book;
      match r with
      | Err err => ret (Err err)
      | Ok updatedBook => ret (Ok updatedBook)
      end
  end.

Definition DeleteBook (id : UUID) : M St (option error) :=
  do r <- Delete bookRepo id;
  match r with
  | Some err => ret (Some err)
  | None => ret None
  end.

End bookUseCase.
End usecases.

(** ** internal/delivery/http/handlers *)

Module handlers.

Record ErrorResponse : Type := mkErrorResponse {
  Error : string;
  Message : string
}.

Inductive Payload : Type :=
| JSONError (e : ErrorResponse)
| JSONBook (b : Book).

(** [c.JSON(code, payload)] *)
Record Response : Type := JSON {
  Status : Z;
  Body : Payload
}.

Definition StatusCreated : Z := 201.
Definition StatusBadRequest : Z := 400.
Definition StatusInternalServerError : Z := 500.

(** The outcome of [c.Bind(&dto)]: an error with its text, or the decoded body. *)
Inductive Bound (A : Type) : Type :=
| BindError (msg : string)
| Decoded (dto : A).
Arguments BindError {A} msg.
Arguments Decoded {A} dto.

Section bookHandler.
Context {St : Type} (bookRepo : BookRepository St).

Definition CreateBook (new_uuid : UUID) (body : Bound CreateBookDTO.t)
  : M St Response :=
  match body with
  | BindError msg =>
      ret (JSON StatusBadRequest
             (JSONError (mkErrorResponse "Invalid request body" msg)))
  | Decoded dto =>
      do r <- usecases.CreateBook bookRepo new_uuid dto;
      match r with
      | Err err =>
          if bool_decide (err = ErrInvalidTitle)
             || bool_decide (err = ErrInvalidAuthor)
             || bool_decide (err = ErrInvalidYear)
          then ret (JSON StatusBadRequest
                      (JSONError (mkErrorResponse "Validation failed"
                                                  (entities.Error err))))
          else ret (JSON StatusInternalServerError
                      (JSONError (mkErrorResponse "Failed to create book"
                                                  (entities.Error err))))
      | Ok book => ret (JSON StatusCreated (JSONBook book))
      end
  end.

End bookHandler.

(** The [error] member of the JSON body, when the body is an error. *)
Definition error_kind (r : Response) : option string :=
  match Body r with
  | JSONError e => Some (Error e)
  | JSONBook _ => None
  end.

End handlers.

(** ** The other handlers of book_handler.go *)

Module book_handler.

(** [SuccessResponse]; [Data] is never set by these handlers. *)
Record SuccessResponse : Type := mkSuccessResponse {
  SuccessMessage : string
}.

(** A [[]*entities.Book] as [encoding/json] sees it: the nil slice, written
    as [null], or a slice with its elements, written as an array. *)
Inductive Slice : Type :=
| NilSlice
| Elements (bs : list Book).


Inductive Content : Type :=
| ErrorJSON (e : handlers.ErrorResponse)
| BookJSON (b : Book)
| BooksJSON (bs : Slice)
| SuccessJSON (m : SuccessResponse).

(** [c.JSON(code, content)] *)
Record Reply : Type := mkReply {
  Code : Z;
  Sent : Content
}.

Definition StatusOK : Z := 200.
Definition StatusNotFound : Z := 404.

(** The outcome of [uuid.Parse(c.Param("id"))]. *)
Inductive Parsed : Type :=
| ParseError (msg : string)
| ParsedUUID (id : UUID).

Definition reply_error (code : Z) (kind : string) (err_text : string) : Reply :=
  mkReply code (ErrorJSON (handlers.mkErrorResponse kind err_text)).

Definition is_validation (err : error) : bool :=
  bool_decide (err = ErrInvalidTitle)
  || bool_decide (err = ErrInvalidAuthor)
  || bool_decide (err = ErrInvalidYear).

Section bookHandler.
Context {St : Type} (bookRepo : BookRepository St).


Definition GetBook (idParam : Parsed) : M St Reply :=
  match idParam with
  | ParseError msg =>
      ret (reply_error handlers.StatusBadRequest "Invalid UUID format" msg)
  | ParsedUUID id =>
      do r <- usecases.GetBookByID bookRepo id;
      match r with
      | Err err =>
          if bool_decide (err = ErrBookNotFound)
          then ret (reply_error StatusNotFound "Book not found" (entities.Error err))
          else ret (reply_error handlers.StatusInternalServerError
                      "Failed to retrieve book" (entities.Error err))
      | Ok book => ret (mkReply StatusOK (BookJSON book))
      end
  end.

Definition UpdateBook (idParam : Parsed) (body : handlers.Bound UpdateBookDTO.t)
  : M St Reply :=
  match idParam with
  | ParseError msg =>
      ret (reply_error handlers.StatusBadRequest "Invalid UUID format" msg)
  | ParsedUUID id =>
      match body with
      | handlers.BindError msg =>
          ret (reply_error handlers.StatusBadRequest "Invalid request body" msg)
      | handlers.Decoded dto =>
          do r <- usecases.UpdateBook bookRepo id dto;
          match r with
          | Err err =>
              if bool_decide (err = ErrBookNotFound)
              then ret (reply_error StatusNotFound "Book not found"
                          (entities.Error err))
              else if is_validation err
              then ret (reply_error handlers.StatusBadRequest "Validation failed"
                          (entities.Error err))
              else ret (reply_error handlers.StatusInternalServerError
                          "Failed to update book" (entities.Error err))
          | Ok book => ret (mkReply StatusOK (BookJSON book))
          end
      end
  end.

Definition DeleteBook (idParam : Parsed) : M St Reply :=
  match idParam with
  | ParseError msg =>
      ret (reply_error handlers.StatusBadRequest "Invalid UUID format" msg)
  | ParsedUUID id =>
      do r <- usecases.DeleteBook bookRepo id;
      match r with
      | Some err =>
          if bool_decide (err = ErrBookNotFound)
          then ret (reply_error StatusNotFound "Book not found" (entities.Error err))
          else ret (reply_error handlers.StatusInternalServerError
                      "Failed to delete book" (entities.Error err))
      | None =>
          ret (mkReply StatusOK
                 (SuccessJSON (mkSuccessResponse "Book deleted successfully")))
      end
  end.

End bookHandler.
End book_handler.

(** ** internal/middleware *)

Module middleware.

(** The [error] values that reach the central handler. *)
Inductive goerror : Type :=
| EntityError (e : error)
| HTTPError (code : Z) (message : option string)
    (** [*echo.HTTPError]; [message] is [None] when [Message] holds a value
        that is not a string *)
| OtherError.

Record ErrorResponse : Type := mkErrorResponse {
  Error : string;
  Message : string;
  RequestID : string;
  Code : Z
}.

(** The [switch] of [CustomHTTPErrorHandler]: status code, error type and
    message; [None] is the panic of the type assertion [he.Message.(string)]. *)
Definition classify (err : goerror) : option (Z * string * string) :=
  match err with
  | EntityError ErrBookNotFound =>
      Some (404, "NOT_FOUND", "The requested book could not be found")
  | EntityError ErrInvalidTitle =>
      Some (400, "VALIDATION_ERROR", "Book title is required and cannot be empty")
  | EntityError ErrInvalidAuthor =>
      Some (400, "VALIDATION_ERROR", "Book author is required and cannot be empty")
  | EntityError ErrInvalidYear =>
      Some (400, "VALIDATION_ERROR", "Publication year must be between 1000 and 2034")
  | EntityError ErrInvalidUUID =>
      Some (400, "VALIDATION_ERROR", "Invalid UUID format provided")
  | EntityError ErrDatabaseError =>
      Some (500, "INTERNAL_ERROR", "A database error occurred. Please try again later")
  | HTTPError code (Some message) => Some (code, "HTTP_ERROR", message)
  | HTTPError code None => None
  | OtherError =>
      Some (500, "INTERNAL_ERROR",
            "An unexpected error occurred. Please try again later")
  end%string.

(** What a call leaves behind: it panicked, or it returned having sent
    a response or not. *)
Inductive Effect : Type :=
| Panic
| Nothing
| SendJSON (status : Z) (body : ErrorResponse)
    (** the response with this status and the body as JSON *)
| SendHeader (status : Z)
    (** the response with this status and no body: the writer refuses a body
        for the status ([http.ErrBodyNotAllowed], which the handler logs) *)
| SendInterim (status : Z) (body : ErrorResponse).
    (** an informational response with this status, followed by the
        response with status 200 and the body as JSON *)

(** [c.JSON(code, body)] on a response that is not committed, served by
    [net/http] (Go 1.21): [Response.Write] turns the status 0 into 200;
    [WriteHeader] panics on a status outside 100..999; a status 1xx other
    than 101 goes out as an informational response and the body then goes
    out with the status 200; for 101, 204 and 304 the body is refused. *)
Definition JSON (code : Z) (body : ErrorResponse) : Effect :=
  if code =? 0 then SendJSON 200 body
  else if (code <? 100) || (999 <? code) then Panic
  else if (code =? 101) || (code =? 204) || (code =? 304) then SendHeader code
  else if code <=? 199 then SendInterim code body
  else SendJSON code body.

(** [CustomHTTPErrorHandler(err, c)], for the request id [requestID] and the
    flag [c.Response().Committed]. *)
Definition CustomHTTPErrorHandler (err : goerror) (requestID : string)
    (committed : bool) : Effect :=
  match classify err with
  | None => Panic
  | Some (code, errorType, message) =>
      let errorResponse := mkErrorResponse errorType message requestID code in
      if committed then Nothing
      else JSON code errorResponse
  end.

(** How the wrapped handler [next(c)] ends. *)
Inductive Outcome : Type :=
| Returns (err : option goerror)
| Panics.

(** [Recover()]: the error returned to the caller and what the deferred
    function did. *)
Definition Recover (next : Outcome) (requestID : string) (committed : bool)
  : option goerror * Effect :=
  match next with
  | Returns err => (err, Nothing)
  | Panics =>
      let err := HTTPError 500 (Some "Internal server error occurred"%string) in
      (None, CustomHTTPErrorHandler err requestID committed)
  end.

(** security.go *)
Record SecurityConfig : Type := mkSecurityConfig {
  APIKeyHeader : string;
  AllowedAPIKeys : list string;
  EnableAPIKey : bool
}.

(** The request as [APIKeyAuth] reads it: the URL path and [Header.Get]. *)
Record Request : Type := mkRequest {
  Path : string;
  HeaderGet : string -> string
}.

(** The loop over [AllowedAPIKeys]. *)
Fixpoint validKey (apiKey : string) (keys : list string) : bool :=
  match keys with
  | [] => false
  | validAPIKey :: rest =>
      if String.eqb apiKey validAPIKey then true else validKey apiKey rest
  end.

(** [APIKeyAuth]: [None] when [next] is called, or the [echo.NewHTTPError]. *)
Definition APIKeyAuth (config : SecurityConfig) (req : Request)
  : option (Z * string) :=
  if negb (EnableAPIKey config) then None
  else if String.eqb (Path req) "/health" || String.eqb (Path req) "/metrics"
  then None
  else
    let apiKey := HeaderGet req (APIKeyHeader config) in
    if String.eqb apiKey "" then Some (401, "API key required"%string)
    else if negb (validKey apiKey (AllowedAPIKeys config))
    then Some (401, "Invalid API key"%string)
    else None.

End middleware.

(** ** Running the service *)

(** One request to the use-case layer. *)
Inductive Op : Type :=
| OpCreate (new_uuid : UUID) (dto : CreateBookDTO.t)
| OpGet (id : UUID)
| OpList
| OpUpdate (id : UUID) (dto : UpdateBookDTO.t)
| OpDelete (id : UUID).

(** The table after the request, served on the PostgreSQL repository while the
    store behaves as [e]. *)
Definition run_op (e : StmtEnv) (op : Op) (t : table) : table :=
  let pg := postgres.NewPostgresBookRepository e in
  match op with
  | OpCreate new_uuid dto => (usecases.CreateBook pg new_uuid dto t).2
  | OpGet id => (usecases.GetBookByID pg id t).2
  | OpList => (usecases.GetAllBooks pg t).2
  | OpUpdate id dto => (usecases.UpdateBook pg id dto t).2
  | OpDelete id => (usecases.DeleteBook pg id t).2
  end.

(** A series of creation requests, each with the behaviour of the store
    during it; the results in order and the final table. *)
Fixpoint create_books (reqs : list (StmtEnv * UUID * CreateBookDTO.t)) (t : table)
  : list (result Book) * table :=
  match reqs with
  | [] => ([], t)
  | (e, new_uuid, dto) :: rest =>
      let (r, t') :=
        usecases.CreateBook (postgres.NewPostgresBookRepository e) new_uuid dto t in
      let (rs, t'') := create_books rest t' in
      (r :: rs, t'')
  end.

Definition is_Ok {A} (r : result A) : Prop :=
  match r with Ok _ => True | Err _ => False end.

(** A series of requests, each with the behaviour of the store during it. *)
Fixpoint run_ops (steps : list (StmtEnv * Op)) (t : table) : table :=
  match steps with
  | [] => t
  | (e, op) :: rest => run_ops rest (run_op e op t)
  end.

(** The clock of the store never goes back: starting from the reading [c],
    the readings of the successive statements do not decrease. *)
Fixpoint clock_monotone (c : Time) (steps : list (StmtEnv * Op)) : Prop :=
  match steps with
  | [] => True
  | (e, _) :: rest => c <= now e /\ clock_monotone (now e) rest
  end.

(** ** Vocabulary of the specification *)

(** "empty or whitespace-only": every rune is white space. *)
Definition whitespace_only (s : gostring) : bool := forallb unicode.IsSpace s.

(** The validation rule as the specification words it: title, then author,
    then year, first failure wins. *)
Definition validate_spec (title author : gostring) (year : Z) : option error :=
  if whitespace_only title then Some ErrInvalidTitle
  else if whitespace_only author then Some ErrInvalidAuthor
  else if bool_decide (year < 1000 \/ year > 2034) then Some ErrInvalidYear
  else None.

(** A request that fails validation. *)
Definition invalid_request (title author : gostring) (year : Z) : Prop :=
  whitespace_only title = true \/ whitespace_only author = true
  \/ year < 1000 \/ year > 2034.

Definition validation_error (e : error) : Prop :=
  e = ErrInvalidTitle \/ e = ErrInvalidAuthor \/ e = ErrInvalidYear.

(** Title and author non-empty after trimming, year within the bound. *)
Definition well_formed (title author : gostring) (year : Z) : Prop :=
  strings.TrimSpace title <> [] /\ strings.TrimSpace author <> []
  /\ 1000 <= year <= 2034.

Definition row_ok (r : row) : Prop := well_formed (title r) (author r) (year r).

(** The invariant of persisted state. *)
Definition table_ok (t : table) : Prop := map_Forall (fun _ r => row_ok r) t.

(** A repository call that writes carries a well-formed book. *)
Definition write_ok (c : RepoCall) : Prop :=
  match c with
  | CallCreate b | CallUpdate _ b => well_formed (Title b) (Author b) (Year b)
  | _ => True
  end.

(** What the specification says of an outcome [v] of validation. *)
Definition first_failure (v : option error) (title author : gostring) (year : Z)
  : Prop :=
  (v = Some ErrInvalidTitle <-> whitespace_only title = true)
  /\ (v = Some ErrInvalidAuthor
      <-> whitespace_only title = false /\ whitespace_only author = true)
  /\ (v = Some ErrInvalidYear
      <-> whitespace_only title = false /\ whitespace_only author = false
          /\ (year < 1000 \/ year > 2034))
  /\ (v = None
      <-> whitespace_only title = false /\ whitespace_only author = false
          /\ 1000 <= year <= 2034).

(** The text is stored by a VARCHAR(255) column as it is: it holds no U+0000
    and has at most 255 characters. *)
Definition fits_column (s : gostring) : Prop :=
  existsb (Z.eqb 0) s = false /\ (length s <= 255)%nat.

(** The string starts or ends with white space. *)
Definition surrounded (s : gostring) : bool :=
  match s with [] => false | r :: _ => unicode.IsSpace r end
  || match rev s with [] => false | r :: _ => unicode.IsSpace r end.

(** * Properties *)

(** ** Trimming *)

Section trim.
Variable f : rune -> bool.

Lemma TrimLeftFunc_nil s :
  strings.TrimLeftFunc f s = [] <-> forallb f s = true.
Proof.
  induction s as [|r s IH]; simpl; [tauto|].
  destruct (f r) eqn:E; simpl; [exact IH|].
  split; intros H; discriminate H.
Qed.

Lemma TrimLeftFunc_keeps s :
  forallb f (strings.TrimLeftFunc f s) = true -> forallb f s = true.
Proof.
  induction s as [|r s IH]; simpl; [tauto|].
  destruct (f r) eqn:E; simpl; [exact IH|].
  rewrite E. tauto.
Qed.

Lemma forallb_rev (s : gostring) : forallb f (rev s) = forallb f s.
Proof.
  apply eq_true_iff_eq. rewrite !forallb_forall.
  split; intros H x Hx; apply H; [now apply in_rev in Hx | now apply in_rev].
Qed.

Lemma rev_nil_iff (s : gostring) : rev s = [] <-> s = [].
Proof.
  split; intros H; [|now subst].
  rewrite <- (rev_involutive s), H. reflexivity.
Qed.

Lemma TrimRightFunc_nil s :
  strings.TrimRightFunc f s = [] <-> forallb f s = true.
Proof.
  unfold strings.TrimRightFunc.
  rewrite rev_nil_iff, TrimLeftFunc_nil, forallb_rev. tauto.
Qed.

Lemma TrimRightFunc_keeps s :
  forallb f (strings.TrimRightFunc f s) = true -> forallb f s = true.
Proof.
  unfold strings.TrimRightFunc. rewrite forallb_rev. intros H.
  apply TrimLeftFunc_keeps in H. now rewrite forallb_rev in H.
Qed.

Lemma TrimFunc_nil s :
  strings.TrimFunc f s = [] <-> forallb f s = true.
Proof.
  unfold strings.TrimFunc. rewrite TrimRightFunc_nil. split.
  - apply TrimLeftFunc_keeps.
  - intros H. apply TrimLeftFunc_nil in H. now rewrite H.
Qed.

Lemma TrimFunc_keeps s :
  forallb f (strings.TrimFunc f s) = true -> forallb f s = true.
Proof.
  unfold strings.TrimFunc. intros H.
  now apply TrimLeftFunc_keeps, TrimRightFunc_keeps.
Qed.
End trim.

Lemma is_empty_nil (s : gostring) : is_empty s = true <-> s = [].
Proof. destruct s; simpl; split; congruence. Qed.

Lemma is_empty_TrimSpace (s : gostring) :
  is_empty (strings.TrimSpace s) = whitespace_only s.
Proof.
  apply eq_true_iff_eq. rewrite is_empty_nil.
  apply TrimFunc_nil.
Qed.

Lemma TrimSpace_not_nil (s : gostring) :
  strings.TrimSpace s <> [] <-> whitespace_only s = false.
Proof.
  unfold strings.TrimSpace. rewrite TrimFunc_nil.
  unfold whitespace_only. destruct (forallb _ s); split; congruence.
Qed.

(** Trimming a string that is not white space only leaves such a string. *)
Lemma TrimSpace_TrimSpace_not_nil (s : gostring) :
  strings.TrimSpace s <> [] -> strings.TrimSpace (strings.TrimSpace s) <> [].
Proof.
  rewrite !TrimSpace_not_nil. unfold whitespace_only, strings.TrimSpace.
  intros H. destruct (forallb _ (strings.TrimFunc _ s)) eqn:E; [|reflexivity].
  apply TrimFunc_keeps in E. congruence.
Qed.

Lemma year_check (y : Z) :
  (y <? 1000) || (y >? 2034) = bool_decide (y < 1000 \/ y > 2034).
Proof.
  apply eq_true_iff_eq. rewrite bool_decide_eq_true, orb_true_iff.
  rewrite Z.ltb_lt, Z.gtb_gt. tauto.
Qed.

Lemma Create_Validate_spec (dto : CreateBookDTO.t) :
  CreateBookDTO.Validate dto
  = validate_spec (CreateBookDTO.Title dto) (CreateBookDTO.Author dto)
                  (CreateBookDTO.Year dto).
Proof.
  unfold CreateBookDTO.Validate, validate_spec.
  now rewrite !is_empty_TrimSpace, year_check.
Qed.

Lemma Update_Validate_spec (dto : UpdateBookDTO.t) :
  UpdateBookDTO.Validate dto
  = validate_spec (UpdateBookDTO.Title dto) (UpdateBookDTO.Author dto)
                  (UpdateBookDTO.Year dto).
Proof.
  unfold UpdateBookDTO.Validate, validate_spec.
  now rewrite !is_empty_TrimSpace, year_check.
Qed.

Lemma validate_spec_cases (ti au : gostring) (y : Z) :
  first_failure (validate_spec ti au y) ti au y.
Proof.
  unfold first_failure, validate_spec.
  destruct (whitespace_only ti), (whitespace_only au);
    try case_bool_decide; intuition (try congruence; try lia).
Qed.

(** The cases of the unit tests of the entities. *)
Example Validate_test_cases :
  CreateBookDTO.Validate
    (CreateBookDTO.mk (runes "The Go Programming Language") (runes "Alan Donovan") 2015)
  = None
  /\ CreateBookDTO.Validate (CreateBookDTO.mk [] (runes "Alan Donovan") 2015)
     = Some ErrInvalidTitle
  /\ CreateBookDTO.Validate
       (CreateBookDTO.mk (runes "The Go Programming Language") (runes "   ") 2015)
     = Some ErrInvalidAuthor
  /\ CreateBookDTO.Validate
       (CreateBookDTO.mk (runes "The Go Programming Language") (runes "Alan Donovan") 999)
     = Some ErrInvalidYear
  /\ CreateBookDTO.Validate
       (CreateBookDTO.mk (runes "The Go Programming Language") (runes "Alan Donovan") 2035)
     = Some ErrInvalidYear
  /\ UpdateBookDTO.Validate
       (UpdateBookDTO.mk (runes "Clean Code") (runes "Robert Martin") 2008)
     = None
  /\ UpdateBookDTO.Validate (UpdateBookDTO.mk (runes "Clean Code") [] 2008)
     = Some ErrInvalidAuthor.
Proof. repeat split. Qed.

Example ToBook_test_case :
  CreateBookDTO.ToBook 42%N
    (CreateBookDTO.mk (runes "  The Go Programming Language  ")
                      (runes "  Alan Donovan  ") 2015)
  = mkBook 42%N (runes "The Go Programming Language") (runes "Alan Donovan") 2015 0 0.
Proof. reflexivity. Qed.

(** ** Validation *)

(** C2. [Validate], on creation and on update requests alike, is the rule of
    the specification: InvalidTitle iff the title is empty or white space only;
    otherwise InvalidAuthor iff the author is; otherwise InvalidYear iff the
    year is below 1000 or above 2034; otherwise success.  An empty title is
    rejected as InvalidTitle whatever the other fields are. *)
Theorem C2_Validate_first_failure :
  forall (c : CreateBookDTO.t) (u : UpdateBookDTO.t),
    (CreateBookDTO.Validate c
     = validate_spec (CreateBookDTO.Title c) (CreateBookDTO.Author c)
                     (CreateBookDTO.Year c)
     /\ first_failure (CreateBookDTO.Validate c) (CreateBookDTO.Title c)
                      (CreateBookDTO.Author c) (CreateBookDTO.Year c))
    /\ (UpdateBookDTO.Validate u
        = validate_spec (UpdateBookDTO.Title u) (UpdateBookDTO.Author u)
                        (UpdateBookDTO.Year u)
        /\ first_failure (UpdateBookDTO.Validate u) (UpdateBookDTO.Title u)
                         (UpdateBookDTO.Author u) (UpdateBookDTO.Year u))
    /\ CreateBookDTO.Validate
         (CreateBookDTO.mk [] (CreateBookDTO.Author c) (CreateBookDTO.Year c))
       = Some ErrInvalidTitle
    /\ UpdateBookDTO.Validate
         (UpdateBookDTO.mk [] (UpdateBookDTO.Author u) (UpdateBookDTO.Year u))
       = Some ErrInvalidTitle.
Proof.
  intros c u. split; [split|split; [split|split; reflexivity]].
  - apply Create_Validate_spec.
  - rewrite Create_Validate_spec. apply validate_spec_cases.
  - apply Update_Validate_spec.
  - rewrite Update_Validate_spec. apply validate_spec_cases.
Qed.

(** ** Use cases over an arbitrary repository *)

Lemma invalid_request_validate_spec (ti au : gostring) (y : Z) :
  invalid_request ti au y ->
  exists err, validation_error err /\ validate_spec ti au y = Some err.
Proof.
  unfold invalid_request, validate_spec, validation_error. intros H.
  destruct (whitespace_only ti); [eauto|].
  destruct (whitespace_only au); [eauto|].
  case_bool_decide as Hy; [eauto|].
  exfalso. destruct H as [H|[H|H]]; try discriminate. tauto.
Qed.

(** C1. A creation or update request that fails validation (title or author
    empty or white space only, or year outside [1000, 2034]) makes CreateBook
    and UpdateBook return that validation error; the repository, whatever its
    implementation, is not called (its call log is unchanged) and the store is
    left as it was. *)
Theorem C1_invalid_request_never_reaches_repository :
  forall (St : Type) (repo : BookRepository St) (s : St) (log : list RepoCall)
         (new_uuid id : UUID) (c : CreateBookDTO.t) (u : UpdateBookDTO.t),
    (invalid_request (CreateBookDTO.Title c) (CreateBookDTO.Author c)
                     (CreateBookDTO.Year c) ->
     exists err,
       validation_error err
       /\ CreateBookDTO.Validate c = Some err
       /\ usecases.CreateBook (traced repo) new_uuid c (s, log)
          = (Err err, (s, log)))
    /\ (invalid_request (UpdateBookDTO.Title u) (UpdateBookDTO.Author u)
                        (UpdateBookDTO.Year u) ->
        exists err,
          validation_error err
          /\ UpdateBookDTO.Validate u = Some err
          /\ usecases.UpdateBook (traced repo) id u (s, log)
             = (Err err, (s, log))).
Proof.
  intros St repo s log new_uuid id c u. split; intros H.
  - destruct (invalid_request_validate_spec _ _ _ H) as (err & Hv & E).
    rewrite <- Create_Validate_spec in E.
    exists err. unfold usecases.CreateBook. now rewrite E.
  - destruct (invalid_request_validate_spec _ _ _ H) as (err & Hv & E).
    rewrite <- Update_Validate_spec in E.
    exists err. unfold usecases.UpdateBook. now rewrite E.
Qed.

Lemma C1_invalid_request_witness :
  let e := mkEnv 7 1%N NoFault in
  let repo := postgres.NewPostgresBookRepository e in
  let c := CreateBookDTO.mk (runes "   ") (runes "Alan Donovan") 2015 in
  let u := UpdateBookDTO.mk (runes "Clean Code") (runes "Robert Martin") 999 in
  (exists err,
      validation_error err
      /\ CreateBookDTO.Validate c = Some err
      /\ usecases.CreateBook (traced repo) 2%N c (∅, []) = (Err err, (∅, [])))
  /\ (exists err,
         validation_error err
         /\ UpdateBookDTO.Validate u = Some err
         /\ usecases.UpdateBook (traced repo) 3%N u (∅, []) = (Err err, (∅, []))).
Proof.
  intros e repo c u.
  destruct (C1_invalid_request_never_reaches_repository
              table repo ∅ [] 2%N 3%N c u) as [Hc Hu].
  split.
  - apply Hc. left. reflexivity.
  - apply Hu. right. right. left. simpl. lia.
Defined.

(** ** Column types *)

Lemma varchar_fits (n : nat) (s : gostring) :
  existsb (Z.eqb 0) s = false -> (length s <= n)%nat -> varchar n s = Some s.
Proof.
  intros H0 Hl. unfold varchar. rewrite H0.
  now rewrite (proj2 (Nat.leb_le _ _) Hl).
Qed.

Lemma varchar_Some (n : nat) (s x : gostring) :
  varchar n s = Some x ->
  existsb (Z.eqb 0) s = false
  /\ ((x = s /\ (length s <= n)%nat)
      \/ (x = take n s /\ (n < length s)%nat
          /\ forallb (Z.eqb 32) (drop n s) = true)).
Proof.
  unfold varchar. destruct (existsb (Z.eqb 0) s); [discriminate|].
  destruct (length s <=? n)%nat eqn:E.
  - apply Nat.leb_le in E. intros H. inversion H; subst. auto.
  - apply Nat.leb_gt in E.
    destruct (forallb (Z.eqb 32) (drop n s)) eqn:F; [|discriminate].
    intros H. inversion H; subst. auto.
Qed.

Lemma spaces_are_white (s : gostring) :
  forallb (Z.eqb 32) s = true -> forallb unicode.IsSpace s = true.
Proof.
  rewrite !forallb_forall. intros H x Hx. specialize (H x Hx).
  apply Z.eqb_eq in H. now subst.
Qed.

(** Cutting trailing spaces keeps every character that is not white space. *)
Lemma varchar_not_blank (n : nat) (s x : gostring) :
  varchar n s = Some x -> strings.TrimSpace s <> [] -> strings.TrimSpace x <> [].
Proof.
  intros H Hs. apply varchar_Some in H.
  destruct H as [_ [[-> _]|(-> & _ & Hsp)]]; [exact Hs|].
  apply TrimSpace_not_nil. apply TrimSpace_not_nil in Hs.
  unfold whitespace_only in *.
  rewrite <- (take_drop n s), forallb_app in Hs.
  rewrite (spaces_are_white _ Hsp), andb_true_r in Hs. exact Hs.
Qed.

Lemma integer_year (y : Z) : 1000 <= y <= 2034 -> integer y = Some y.
Proof.
  intros H. unfold integer.
  destruct (Z.leb_spec (-2147483648) y), (Z.leb_spec y 2147483647);
    simpl; try reflexivity; lia.
Qed.

Lemma integer_Some (y z : Z) : integer y = Some z -> z = y.
Proof. unfold integer. destruct (_ && _); congruence. Qed.

Lemma columns_Some (b : Book) (ti au : gostring) (y : Z) :
  columns b = Some (ti, au, y)
  <-> varchar 255 (Title b) = Some ti /\ varchar 255 (Author b) = Some au
      /\ integer (Year b) = Some y.
Proof.
  unfold columns.
  destruct (varchar 255 (Title b)), (varchar 255 (Author b)), (integer (Year b));
    split; try discriminate; try (intros (? & ? & ?); discriminate).
  - intros H. inversion H. auto.
  - intros (H1 & H2 & H3). congruence.
Qed.

(** ** The PostgreSQL repository *)

(** C3. Read-by-id reports a storage failure that is not "no such row" (here
    the driver call itself failing: connection lost, timeout, cancellation) as
    BookNotFound, for every id and every content of the table, also when the
    row exists.  DatabaseError is what the claim expects there. *)
Theorem C3_GetByID_driver_failure_is_BookNotFound :
  forall (clock : Time) (g id : UUID) (r : row) (t : table),
    let e := mkEnv clock g FailCall in
    let repo := postgres.NewPostgresBookRepository e in
    usecases.GetBookByID repo id t = (Err ErrBookNotFound, t)
    /\ usecases.GetBookByID repo id (<[id := r]> t)
       = (Err ErrBookNotFound, <[id := r]> t)
    /\ (usecases.GetBookByID repo id (<[id := r]> t)).1 <> Err ErrDatabaseError.
Proof.
  intros clock g id r t e repo. repeat split. discriminate.
Qed.

(** C9. When the INSERT has run but its result set delivers no row
    ([rows.Next()] is false), [Create] returns the zero-valued book together
    with a nil error: success is reported although the stored row is not
    returned.  This is so for every book whose values the columns accept
    (any other book is refused with DatabaseError and nothing is stored), in
    particular for every book whose title and author have at most 255
    characters, none of them U+0000, and whose year is a four-byte integer:
    the row stored then holds the book's own title, author and year. *)
Theorem C9_Create_success_without_stored_row :
  forall (clock : Time) (g : UUID) (book : Book),
    let e := mkEnv clock g FailResult in
    postgres.Create e book ∅
    = match columns book with
      | Some (ti, au, y) => (Ok zero_Book, {[ g := mkRow ti au y clock clock ]})
      | None => (Err ErrDatabaseError, ∅)
      end
    /\ (fits_column (Title book) -> fits_column (Author book) ->
        -2147483648 <= Year book <= 2147483647 ->
        postgres.Create e book ∅
        = (Ok zero_Book,
           {[ g := mkRow (Title book) (Author book) (Year book) clock clock ]})).
Proof.
  intros clock g book e.
  assert (H : postgres.Create e book ∅
              = match columns book with
                | Some (ti, au, y) =>
                    (Ok zero_Book, {[ g := mkRow ti au y clock clock ]})
                | None => (Err ErrDatabaseError, ∅)
                end).
  { unfold postgres.Create, sqlx.NamedQueryContext.
    simpl. unfold insert_returning. simpl.
    destruct (columns book) as [[[ti au] y]|]; [|reflexivity].
    now rewrite lookup_empty. }
  split; [exact H|]. intros Ht Ha Hy. rewrite H.
  assert (Hc : columns book = Some (Title book, Author book, Year book)).
  { destruct Ht as [Ht0 Htl], Ha as [Ha0 Hal].
    apply columns_Some. split; [now apply varchar_fits|].
    split; [now apply varchar_fits|].
    unfold integer.
    destruct (-2147483648 <=? Year book) eqn:E1;
      destruct (Year book <=? 2147483647) eqn:E2; simpl; [reflexivity|lia..]. }
  now rewrite Hc.
Qed.

Lemma C9_Create_witness :
  postgres.Create (mkEnv 7 1%N FailResult)
    (mkBook 9%N (runes "Clean Code") (runes "Robert Martin") 2008 0 0) ∅
  = (Ok zero_Book,
     {[ 1%N := mkRow (runes "Clean Code") (runes "Robert Martin") 2008 7 7 ]}).
Proof.
  assert (Hfit : forall s, existsb (Z.eqb 0) s = false ->
                           (length s <=? 255)%nat = true -> fits_column s).
  { intros s0 H0 Hl. split; [exact H0|now apply Nat.leb_le]. }
  apply (C9_Create_success_without_stored_row 7 1%N
           (mkBook 9%N (runes "Clean Code") (runes "Robert Martin") 2008 0 0)).
  - exact (Hfit (runes "Clean Code") eq_refl eq_refl).
  - exact (Hfit (runes "Robert Martin") eq_refl eq_refl).
  - simpl. lia.
Defined.

Lemma delete_by_id_zero (id : UUID) (t : table) :
  (delete_by_id id t).1 = 0 <-> t !! id = None.
Proof.
  unfold delete_by_id. destruct (t !! id); simpl; split; intros H; congruence.
Qed.

Lemma delete_by_id_lookup (id : UUID) (t : table) :
  (delete_by_id id t).2 !! id = None.
Proof.
  unfold delete_by_id. destruct (t !! id) eqn:E; simpl; [|exact E].
  apply lookup_delete_eq.
Qed.

Lemma GetByID_absent (e : StmtEnv) (id : UUID) (t : table) :
  t !! id = None -> postgres.GetByID e id t = (Err ErrBookNotFound, t).
Proof.
  intros H. unfold postgres.GetByID, sqlx.GetContext, select_by_id.
  rewrite H. now destruct (fault e).
Qed.

Lemma Delete_outcome (e : StmtEnv) (id : UUID) (t : table) :
  postgres.Delete e id t
  = match fault e with
    | FailCall =>
        (Some ErrDatabaseError, if applied e then (delete_by_id id t).2 else t)
    | FailResult => (Some ErrDatabaseError, (delete_by_id id t).2)
    | _ => match t !! id with
           | None => (Some ErrBookNotFound, t)
           | Some _ => (None, delete id t)
           end
    end.
Proof.
  unfold postgres.Delete, sqlx.ExecContext, delete_by_id.
  destruct (fault e), (t !! id); reflexivity.
Qed.

(** C5. DeleteBook returns BookNotFound exactly when the statement ran and
    reported zero affected rows, which is when the id is unknown; it returns
    DatabaseError exactly when the driver call or the reading of its result
    fails; and when it succeeds the row is gone, so that any following
    get-by-id of that id yields BookNotFound. *)
Theorem C5_DeleteBook_outcomes :
  forall (e e' : StmtEnv) (id : UUID) (t : table),
    let repo := postgres.NewPostgresBookRepository e in
    let repo' := postgres.NewPostgresBookRepository e' in
    let res := (usecases.DeleteBook repo id t).1 in
    let t' := (usecases.DeleteBook repo id t).2 in
    ((delete_by_id id t).1 = 0 <-> t !! id = None)
    /\ (res = Some ErrBookNotFound
        <-> fault e <> FailCall /\ fault e <> FailResult
            /\ (delete_by_id id t).1 = 0)
    /\ (res = Some ErrDatabaseError
        <-> fault e = FailCall \/ fault e = FailResult)
    /\ (res = None ->
        is_Some (t !! id) /\ t' = delete id t /\ t' !! id = None
        /\ usecases.GetBookByID repo' id t' = (Err ErrBookNotFound, t')).
Proof.
  intros e e' id t repo repo' res t'.
  split; [apply delete_by_id_zero|].
  assert (Hres : usecases.DeleteBook repo id t = postgres.Delete e id t).
  { unfold usecases.DeleteBook, bind, ret, repo. simpl.
    destruct (postgres.Delete e id t) as [[err|] t0]; reflexivity. }
  subst res t'. rewrite Hres, Delete_outcome.
  rewrite delete_by_id_zero.
  destruct (fault e) eqn:Ef, (t !! id) eqn:Et; simpl;
    (split; [|split]);
    try (split; intros; intuition (try congruence; try discriminate));
    try (intros; discriminate).
  all: try (eexists; reflexivity); try apply lookup_delete_eq.
  all: unfold usecases.GetBookByID, bind, repo'; simpl;
    rewrite GetByID_absent; [reflexivity|apply lookup_delete_eq].
Qed.

Lemma C5_DeleteBook_witness :
  let e := mkEnv 9 5%N NoFault in
  let t : table := {[ 1%N := mkRow (runes "Book to Delete") (runes "Delete Author")
                                   2023 3 3 ]} in
  (usecases.DeleteBook (postgres.NewPostgresBookRepository e) 1%N t).1 = None
  /\ usecases.GetBookByID (postgres.NewPostgresBookRepository e) 1%N
       (usecases.DeleteBook (postgres.NewPostgresBookRepository e) 1%N t).2
     = (Err ErrBookNotFound,
        (usecases.DeleteBook (postgres.NewPostgresBookRepository e) 1%N t).2).
Proof.
  intros e t.
  assert (H : (usecases.DeleteBook (postgres.NewPostgresBookRepository e)
                 1%N t).1 = None) by (vm_compute; reflexivity).
  split; [exact H|].
  exact (proj2 (proj2 (proj2
    (proj2 (proj2 (proj2 (C5_DeleteBook_outcomes e e 1%N t))) H)))).
Defined.

#[local] Instance created_at_desc_total : Total created_at_desc.
Proof. intros b1 b2. unfold created_at_desc. lia. Qed.

#[local] Instance created_at_desc_trans : Transitive created_at_desc.
Proof. intros b1 b2 b3. unfold created_at_desc. lia. Qed.

Lemma books_of_length (t : table) : length (books_of t) = size t.
Proof. unfold books_of. now rewrite length_fmap, length_map_to_list. Qed.

Lemma books_of_elem (t : table) (b : Book) :
  b ∈ books_of t <-> exists r, t !! ID b = Some r /\ b = to_Book (ID b) r.
Proof.
  unfold books_of. rewrite list_elem_of_fmap. split.
  - intros ([id r] & -> & Hin). apply elem_of_map_to_list in Hin.
    simpl. eauto.
  - intros (r & Hr & Hb). exists (ID b, r). split; [exact Hb|].
    now apply elem_of_map_to_list.
Qed.

(** C6. When the query goes through, ListBooks returns every stored book
    exactly once, ordered by created_at descending, and leaves the table as it
    is; on the empty table the result is the empty sequence with a nil
    error. *)
Theorem C6_GetAllBooks_all_rows_newest_first :
  forall (e : StmtEnv) (t : table),
    fault e = NoFault ->
    let repo := postgres.NewPostgresBookRepository e in
    (exists books,
        usecases.GetAllBooks repo t = (Ok books, t)
        /\ books ≡ₚ books_of t
        /\ (forall b, b ∈ books <-> t !! ID b = Some (mkRow (Title b) (Author b)
                                     (Year b) (CreatedAt b) (UpdatedAt b)))
        /\ length books = size t
        /\ StronglySorted created_at_desc books)
    /\ usecases.GetAllBooks repo ∅ = (Ok [], ∅).
Proof.
  intros e t Hf repo. split.
  - exists (select_all_ordered t).
    assert (Hp : select_all_ordered t ≡ₚ books_of t)
      by apply merge_sort_Permutation.
    split; [|split; [exact Hp|split; [|split]]].
    + unfold usecases.GetAllBooks, bind, ret, repo. simpl.
      unfold postgres.GetAll, sqlx.SelectContext. now rewrite Hf.
    + intros b. rewrite Hp, books_of_elem. split.
      * intros (r & Hr & Hb). rewrite Hr. f_equal.
        destruct r, b; simpl in *. unfold to_Book in Hb. simpl in Hb.
        now inversion Hb.
      * intros Hb. eexists. split; [exact Hb|]. now destruct b.
    + rewrite <- books_of_length. now apply Permutation_length.
    + apply StronglySorted_merge_sort; apply _.
  - unfold usecases.GetAllBooks, bind, ret, repo. simpl.
    unfold postgres.GetAll, sqlx.SelectContext. rewrite Hf.
    unfold select_all_ordered, books_of. now rewrite map_to_list_empty.
Qed.

Lemma C6_GetAllBooks_witness :
  let e := mkEnv 50 9%N NoFault in
  let t : table :=
    <[ 1%N := mkRow (runes "Book 1") (runes "Author 1") 2020 10 10 ]>
      (<[ 2%N := mkRow (runes "Book 2") (runes "Author 2") 2021 30 30 ]>
         (<[ 3%N := mkRow (runes "Book 3") (runes "Author 3") 2022 20 25 ]> ∅)) in
  usecases.GetAllBooks (postgres.NewPostgresBookRepository e) t
  = (Ok [ mkBook 2%N (runes "Book 2") (runes "Author 2") 2021 30 30;
          mkBook 3%N (runes "Book 3") (runes "Author 3") 2022 20 25;
          mkBook 1%N (runes "Book 1") (runes "Author 1") 2020 10 10 ], t)
  /\ usecases.GetAllBooks (postgres.NewPostgresBookRepository e) ∅ = (Ok [], ∅).
Proof.
  intros e t. split.
  - vm_compute. reflexivity.
  - exact (proj2 (C6_GetAllBooks_all_rows_newest_first e t eq_refl)).
Defined.


Lemma Create_NoFault (e : StmtEnv) (b : Book) (t : table)
    (ti au : gostring) (y : Z) :
  fault e = NoFault -> t !! uuid_generate_v4 e = None ->
  columns b = Some (ti, au, y) ->
  let r := mkRow ti au y (now e) (now e) in
  postgres.Create e b t
  = (Ok (to_Book (uuid_generate_v4 e) r), <[uuid_generate_v4 e := r]> t).
Proof.
  intros Hf Hg Hc r. unfold postgres.Create, sqlx.NamedQueryContext, insert_returning.
  now rewrite Hf, Hc, Hg.
Qed.

Lemma Update_NoFault (e : StmtEnv) (id : UUID) (b : Book) (t : table) (old : row)
    (ti au : gostring) (y : Z) :
  fault e = NoFault -> t !! id = Some old ->
  columns b = Some (ti, au, y) ->
  let r := mkRow ti au y (created_at old) (now e) in
  postgres.Update e id b t = (Ok (to_Book id r), <[id := r]> t).
Proof.
  intros Hf Hid Hc r.
  unfold postgres.Update, sqlx.NamedQueryContext, update_returning.
  change (columns (mkBook id (Title b) (Author b) (Year b) (CreatedAt b)
                          (UpdatedAt b))) with (columns b).
  simpl. now rewrite Hf, Hc, Hid.
Qed.

Lemma Update_absent (e : StmtEnv) (id : UUID) (b : Book) (t : table)
    (ti au : gostring) (y : Z) :
  fault e <> FailCall -> t !! id = None ->
  columns b = Some (ti, au, y) ->
  postgres.Update e id b t = (Err ErrBookNotFound, t).
Proof.
  intros Hf Hid Hc.
  unfold postgres.Update, sqlx.NamedQueryContext, update_returning.
  change (columns (mkBook id (Title b) (Author b) (Year b) (CreatedAt b)
                          (UpdatedAt b))) with (columns b).
  simpl. rewrite Hc, Hid. now destruct (fault e).
Qed.

(** The columns take the fields of a valid update request whose strings they
    accept. *)
Lemma columns_update (dto : UpdateBookDTO.t) (ti au : gostring) :
  UpdateBookDTO.Validate dto = None ->
  varchar 255 (UpdateBookDTO.Title dto) = Some ti ->
  varchar 255 (UpdateBookDTO.Author dto) = Some au ->
  columns (mkBook 0%N (UpdateBookDTO.Title dto) (UpdateBookDTO.Author dto)
                  (UpdateBookDTO.Year dto) 0 0)
  = Some (ti, au, UpdateBookDTO.Year dto).
Proof.
  intros Hv Ht Ha. apply columns_Some. simpl. split; [exact Ht|].
  split; [exact Ha|]. apply integer_year.
  rewrite Update_Validate_spec in Hv.
  apply validate_spec_cases in Hv. tauto.
Qed.

Lemma UpdateBook_valid {St} (repo : BookRepository St) (id : UUID)
    (dto : UpdateBookDTO.t) (s : St) :
  UpdateBookDTO.Validate dto = None ->
  usecases.UpdateBook repo id dto s
  = Update repo id (mkBook 0%N (UpdateBookDTO.Title dto) (UpdateBookDTO.Author dto)
                           (UpdateBookDTO.Year dto) 0 0) s.
Proof.
  intros Hv. unfold usecases.UpdateBook, bind, ret. rewrite Hv.
  destruct (Update repo id _ s) as [[b|err] s']; reflexivity.
Qed.

Lemma CreateBook_valid {St} (repo : BookRepository St) (new_uuid : UUID)
    (dto : CreateBookDTO.t) (s : St) :
  CreateBookDTO.Validate dto = None ->
  usecases.CreateBook repo new_uuid dto s
  = Create repo (CreateBookDTO.ToBook new_uuid dto) s.
Proof.
  intros Hv. unfold usecases.CreateBook, bind, ret. rewrite Hv.
  destruct (Create repo _ s) as [[b|err] s']; reflexivity.
Qed.

(** ** Update *)

(** C4, as stated, fails in two ways, each time for a valid request on a known
    id whose update succeeds.  When the store's clock reads the same instant
    at the update as at the previous write of the row, updated_at is not
    greater than before.  And when the title has more than 255 characters of
    which only spaces lie beyond the 255th, the VARCHAR(255) column cuts it,
    so that the returned title is not the title of the request. *)
Lemma C4_updated_at_not_strictly_greater :
  let old := mkRow (runes "Original Book") (runes "Original Author") 2020 5 5 in
  let t : table := {[ 1%N := old ]} in
  (let e := mkEnv 5 9%N NoFault in
   let dto := UpdateBookDTO.mk (runes "Updated Book") (runes "Updated Author") 2023 in
   UpdateBookDTO.Validate dto = None
   /\ t !! 1%N = Some old
   /\ usecases.UpdateBook (postgres.NewPostgresBookRepository e) 1%N dto t
      = (Ok (mkBook 1%N (runes "Updated Book") (runes "Updated Author") 2023 5 5),
         {[ 1%N := mkRow (runes "Updated Book") (runes "Updated Author") 2023 5 5 ]})
   /\ ~ (updated_at old < 5))
  /\ (let e := mkEnv 8 9%N NoFault in
      let long := 97 :: replicate 299 32 in
      let dto := UpdateBookDTO.mk long (runes "Updated Author") 2023 in
      UpdateBookDTO.Validate dto = None
      /\ t !! 1%N = Some old
      /\ usecases.UpdateBook (postgres.NewPostgresBookRepository e) 1%N dto t
         = (Ok (mkBook 1%N (97 :: replicate 254 32) (runes "Updated Author")
                       2023 5 8),
            {[ 1%N := mkRow (97 :: replicate 254 32) (runes "Updated Author")
                            2023 5 8 ]})
      /\ 97 :: replicate 254 32 <> UpdateBookDTO.Title dto).
Proof.
  split.
  - repeat split; try (vm_compute; reflexivity). simpl. lia.
  - repeat split; try (vm_compute; reflexivity).
    intros H. apply (f_equal length) in H. vm_compute in H. discriminate H.
Qed.

(** C4, amended.  For every valid update request whose statement goes through
    (no storage failure, and title and author are values the VARCHAR(255)
    columns accept): on a known id the returned entity is the stored row,
    with id and created_at unchanged, updated_at set to the store's current
    timestamp (strictly greater than before exactly when the clock has
    advanced past the previous updated_at), year equal to the request, and
    title and author as the columns take those of the request, which is the
    request's own string whenever it has at most 255 characters; on an
    unknown id the result is BookNotFound and the table is unchanged. *)
Theorem C4_UpdateBook_returns_refreshed_row :
  forall (e : StmtEnv) (id : UUID) (dto : UpdateBookDTO.t) (t : table)
         (ti au : gostring),
    UpdateBookDTO.Validate dto = None ->
    fault e = NoFault ->
    varchar 255 (UpdateBookDTO.Title dto) = Some ti ->
    varchar 255 (UpdateBookDTO.Author dto) = Some au ->
    let repo := postgres.NewPostgresBookRepository e in
    (forall old, t !! id = Some old ->
       exists b,
         usecases.UpdateBook repo id dto t
         = (Ok b, <[id := mkRow (Title b) (Author b) (Year b)
                               (CreatedAt b) (UpdatedAt b)]> t)
         /\ ID b = id
         /\ CreatedAt b = created_at old
         /\ UpdatedAt b = now e
         /\ (updated_at old < UpdatedAt b <-> updated_at old < now e)
         /\ Title b = ti
         /\ Author b = au
         /\ ((length (UpdateBookDTO.Title dto) <= 255)%nat ->
             Title b = UpdateBookDTO.Title dto)
         /\ ((length (UpdateBookDTO.Author dto) <= 255)%nat ->
             Author b = UpdateBookDTO.Author dto)
         /\ Year b = UpdateBookDTO.Year dto)
    /\ (t !! id = None ->
        usecases.UpdateBook repo id dto t = (Err ErrBookNotFound, t)).
Proof.
  intros e id dto t ti au Hv Hf Hti Hau repo.
  pose proof (columns_update dto ti au Hv Hti Hau) as Hc.
  split.
  - intros old Hid.
    exists (to_Book id (mkRow ti au (UpdateBookDTO.Year dto)
                              (created_at old) (now e))).
    rewrite UpdateBook_valid by exact Hv.
    unfold repo. simpl.
    rewrite (Update_NoFault e id _ t old _ _ _ Hf Hid Hc). simpl.
    repeat split; auto.
    + intros Hl. apply varchar_Some in Hti.
      destruct Hti as [_ [[-> _]|(_ & Hgt & _)]]; [reflexivity|lia].
    + intros Hl. apply varchar_Some in Hau.
      destruct Hau as [_ [[-> _]|(_ & Hgt & _)]]; [reflexivity|lia].
  - intros Hid. rewrite UpdateBook_valid by exact Hv.
    unfold repo. simpl.
    eapply Update_absent; [rewrite Hf; discriminate|exact Hid|exact Hc].
Qed.

Lemma C4_UpdateBook_witness :
  let old := mkRow (runes "Original Book") (runes "Original Author") 2020 5 5 in
  let t : table := {[ 1%N := old ]} in
  let e := mkEnv 8 9%N NoFault in
  let dto := UpdateBookDTO.mk (runes "Updated Book") (runes "Updated Author") 2023 in
  (exists b,
      usecases.UpdateBook (postgres.NewPostgresBookRepository e) 1%N dto t
      = (Ok b, <[1%N := mkRow (Title b) (Author b) (Year b)
                               (CreatedAt b) (UpdatedAt b)]> t)
      /\ ID b = 1%N /\ CreatedAt b = 5 /\ UpdatedAt b = 8
      /\ (5 < UpdatedAt b <-> 5 < 8)
      /\ Title b = runes "Updated Book"
      /\ Author b = runes "Updated Author"
      /\ Year b = 2023)
  /\ usecases.UpdateBook (postgres.NewPostgresBookRepository e) 2%N dto t
     = (Err ErrBookNotFound, t).
Proof.
  intros old t e dto.
  destruct (C4_UpdateBook_returns_refreshed_row e 1%N dto t
              (runes "Updated Book") (runes "Updated Author")
              eq_refl eq_refl eq_refl eq_refl)
    as [Hknown _].
  destruct (C4_UpdateBook_returns_refreshed_row e 2%N dto t
              (runes "Updated Book") (runes "Updated Author")
              eq_refl eq_refl eq_refl eq_refl)
    as [_ Hunknown].
  split.
  - destruct (Hknown old eq_refl)
      as (b & H1 & H2 & H3 & H4 & H5 & H6 & H7 & _ & _ & H8).
    exists b. repeat split; auto; apply H5.
  - apply Hunknown. reflexivity.
Defined.

(** ** The HTTP handler *)

(** C8, as stated, fails on the error kind: for POST /books with the body
    {title:"", author:"X", year:2000} the response has status 400 and no row is
    created, but the [error] member of the body is not VALIDATION_ERROR. *)
Lemma C8_error_kind_is_not_VALIDATION_ERROR :
  let e := mkEnv 7 1%N NoFault in
  let repo := postgres.NewPostgresBookRepository e in
  let dto := CreateBookDTO.mk [] (runes "X") 2000 in
  let out := handlers.CreateBook repo 2%N (handlers.Decoded dto) ∅ in
  handlers.Status out.1 = 400
  /\ out.2 = ∅
  /\ handlers.error_kind out.1 <> Some "VALIDATION_ERROR"%string.
Proof.
  repeat split. vm_compute. discriminate.
Qed.

(** C8, amended.  A POST /books request whose title is empty or white space
    only (for instance {title:"", author:"X", year:2000}) is answered with
    status 400 and the error body {error: "Validation failed", message: "title
    cannot be empty"}; the repository is not called and no row is created. *)
Theorem C8_CreateBook_handler_rejects_blank_title :
  forall (St : Type) (repo : BookRepository St) (s : St) (log : list RepoCall)
         (new_uuid : UUID) (dto : CreateBookDTO.t),
    whitespace_only (CreateBookDTO.Title dto) = true ->
    handlers.CreateBook (traced repo) new_uuid (handlers.Decoded dto) (s, log)
    = (handlers.JSON 400
         (handlers.JSONError
            (handlers.mkErrorResponse "Validation failed" "title cannot be empty")),
       (s, log)).
Proof.
  intros St repo s log new_uuid dto Hw.
  assert (Hv : CreateBookDTO.Validate dto = Some ErrInvalidTitle).
  { rewrite Create_Validate_spec. unfold validate_spec. now rewrite Hw. }
  unfold handlers.CreateBook, usecases.CreateBook, bind, ret.
  now rewrite Hv.
Qed.

Lemma C8_CreateBook_handler_witness :
  let e := mkEnv 7 1%N NoFault in
  let repo := postgres.NewPostgresBookRepository e in
  let dto := CreateBookDTO.mk [] (runes "X") 2000 in
  handlers.CreateBook (traced repo) 2%N (handlers.Decoded dto) (∅, [])
  = (handlers.JSON 400
       (handlers.JSONError
          (handlers.mkErrorResponse "Validation failed" "title cannot be empty")),
     (∅, [])).
Proof.
  intros e repo dto.
  apply (C8_CreateBook_handler_rejects_blank_title table repo ∅ [] 2%N dto).
  reflexivity.
Defined.

(** ** What reaches the store *)

Lemma validate_spec_None_well_formed (ti au : gostring) (y : Z) :
  validate_spec ti au y = None -> well_formed ti au y.
Proof.
  intros H. apply validate_spec_cases in H. destruct H as (Ht & Ha & Hy).
  unfold well_formed. now rewrite !TrimSpace_not_nil.
Qed.

Lemma well_formed_TrimSpace (ti au : gostring) (y : Z) :
  well_formed ti au y ->
  well_formed (strings.TrimSpace ti) (strings.TrimSpace au) y.
Proof.
  intros (Ht & Ha & Hy). unfold well_formed.
  auto using TrimSpace_TrimSpace_not_nil.
Qed.

Lemma Create_state (e : StmtEnv) (b : Book) (t : table) :
  (postgres.Create e b t).2 = t
  \/ exists ti au y,
       columns b = Some (ti, au, y)
       /\ t !! uuid_generate_v4 e = None
       /\ (postgres.Create e b t).2
          = <[uuid_generate_v4 e := mkRow ti au y (now e) (now e)]> t.
Proof.
  unfold postgres.Create, sqlx.NamedQueryContext, insert_returning.
  destruct (columns b) as [[[ti au] y]|] eqn:Hc;
    [|destruct (fault e), (applied e); simpl; auto].
  destruct (t !! uuid_generate_v4 e) eqn:Hg; [destruct (fault e), (applied e); simpl; auto|].
  destruct (fault e), (applied e); simpl; auto; right; exists ti, au, y; auto.
Qed.

Lemma Update_state (e : StmtEnv) (id : UUID) (b : Book) (t : table) :
  (postgres.Update e id b t).2 = t
  \/ exists ti au y old,
       columns b = Some (ti, au, y)
       /\ t !! id = Some old
       /\ (postgres.Update e id b t).2
          = <[id := mkRow ti au y (created_at old) (now e)]> t.
Proof.
  unfold postgres.Update, sqlx.NamedQueryContext, update_returning.
  change (columns (mkBook id (Title b) (Author b) (Year b) (CreatedAt b)
                          (UpdatedAt b))) with (columns b).
  simpl.
  destruct (columns b) as [[[ti au] y]|] eqn:Hc;
    [|destruct (fault e), (applied e); simpl; auto].
  destruct (t !! id) as [old|] eqn:Hid; [|destruct (fault e), (applied e); simpl; auto].
  destruct (fault e), (applied e); simpl; auto; right; exists ti, au, y, old; auto.
Qed.

Lemma columns_well_formed (b : Book) (ti au : gostring) (y : Z) :
  columns b = Some (ti, au, y) ->
  well_formed (Title b) (Author b) (Year b) -> well_formed ti au y.
Proof.
  intros Hc (Ht & Ha & Hy). apply columns_Some in Hc.
  destruct Hc as (Hti & Hau & Hyy). apply integer_Some in Hyy. subst y.
  repeat split; try lia; eauto using varchar_not_blank.
Qed.

Lemma Create_table_ok (e : StmtEnv) (b : Book) (t : table) :
  well_formed (Title b) (Author b) (Year b) ->
  table_ok t -> table_ok (postgres.Create e b t).2.
Proof.
  intros Hb Ht.
  destruct (Create_state e b t) as [->|(ti & au & y & Hc & _ & ->)];
    [exact Ht|].
  apply map_Forall_insert_2; [|exact Ht].
  exact (columns_well_formed b ti au y Hc Hb).
Qed.

Lemma Update_table_ok (e : StmtEnv) (id : UUID) (b : Book) (t : table) :
  well_formed (Title b) (Author b) (Year b) ->
  table_ok t -> table_ok (postgres.Update e id b t).2.
Proof.
  intros Hb Ht.
  destruct (Update_state e id b t) as [->|(ti & au & y & old & Hc & _ & ->)];
    [exact Ht|].
  apply map_Forall_insert_2; [|exact Ht].
  exact (columns_well_formed b ti au y Hc Hb).
Qed.

Lemma Delete_table_ok (e : StmtEnv) (id : UUID) (t : table) :
  table_ok t -> table_ok (postgres.Delete e id t).2.
Proof.
  intros Ht. rewrite Delete_outcome. unfold delete_by_id.
  destruct (fault e), (applied e), (t !! id); simpl; try assumption;
    apply map_Forall_delete; assumption.
Qed.

Lemma logged_log {St A} (c : RepoCall) (m : M St A) (s : St) (log : list RepoCall) :
  (logged c m (s, log)).2.2 = log ++ [c].
Proof. unfold logged. now destruct (m s). Qed.

Lemma Forall_write_ok_snoc (log : list RepoCall) (c : RepoCall) :
  Forall write_ok log -> write_ok c -> Forall write_ok (log ++ [c]).
Proof. intros Hl Hc. apply Forall_app. split; [exact Hl|]. now constructor. Qed.

(** C7. Every book the use-case layer hands to a writing operation of the
    repository (Create, Update), whatever the repository, has title and author
    non-empty after trimming and a year within [1000, 2034].  Consequently the
    invariant "every stored row has such a title, author and year" holds of
    the empty table and of the sample rows of init.sql, and is preserved by
    each of the five use cases on the PostgreSQL repository, whatever the
    store does (failures included); a table satisfying it holds no empty or
    white-space-only title or author. *)
Theorem C7_only_well_formed_books_are_persisted :
  forall (St : Type) (repo : BookRepository St) (s : St) (log : list RepoCall)
         (e : StmtEnv) (t : table) (new_uuid id : UUID)
         (c : CreateBookDTO.t) (u : UpdateBookDTO.t),
    (Forall write_ok log ->
     Forall write_ok (usecases.CreateBook (traced repo) new_uuid c (s, log)).2.2
     /\ Forall write_ok (usecases.UpdateBook (traced repo) id u (s, log)).2.2
     /\ Forall write_ok (usecases.DeleteBook (traced repo) id (s, log)).2.2
     /\ Forall write_ok (usecases.GetBookByID (traced repo) id (s, log)).2.2
     /\ Forall write_ok (usecases.GetAllBooks (traced repo) (s, log)).2.2)
    /\ (table_ok t ->
        let pg := postgres.NewPostgresBookRepository e in
        table_ok (usecases.CreateBook pg new_uuid c t).2
        /\ table_ok (usecases.UpdateBook pg id u t).2
        /\ table_ok (usecases.DeleteBook pg id t).2
        /\ table_ok (usecases.GetBookByID pg id t).2
        /\ table_ok (usecases.GetAllBooks pg t).2
        /\ forall k r, t !! k = Some r ->
             whitespace_only (title r) = false
             /\ whitespace_only (author r) = false
             /\ 1000 <= year r <= 2034)
    /\ table_ok ∅
    /\ Forall row_ok (sample_data (now e)).
Proof.
  intros St repo s log e t new_uuid id c u.
  split; [intros Hlog|split; [intros Ht pg|split]].
  - split; [|split; [|split; [|split]]].
    + destruct (CreateBookDTO.Validate c) eqn:Hv.
      * unfold usecases.CreateBook. rewrite Hv. exact Hlog.
      * rewrite CreateBook_valid by exact Hv.
        unfold traced; cbn [Create]. rewrite logged_log.
        apply Forall_write_ok_snoc; [exact Hlog|]. simpl.
        apply well_formed_TrimSpace, validate_spec_None_well_formed.
        now rewrite <- Create_Validate_spec.
    + destruct (UpdateBookDTO.Validate u) eqn:Hv.
      * unfold usecases.UpdateBook. rewrite Hv. exact Hlog.
      * rewrite UpdateBook_valid by exact Hv.
        unfold traced; cbn [Update]. rewrite logged_log.
        apply Forall_write_ok_snoc; [exact Hlog|]. simpl.
        apply validate_spec_None_well_formed.
        now rewrite <- Update_Validate_spec.
    + unfold usecases.DeleteBook, bind, ret, logged. simpl.
      destruct (Delete repo id s) as [[err|] s'];
        now apply Forall_write_ok_snoc.
    + unfold usecases.GetBookByID, bind, ret, logged. simpl.
      destruct (GetByID repo id s) as [[b|err] s'];
        now apply Forall_write_ok_snoc.
    + unfold usecases.GetAllBooks, bind, ret, logged. simpl.
      destruct (GetAll repo s) as [[b|err] s'];
        now apply Forall_write_ok_snoc.
  - split; [|split; [|split; [|split; [|split]]]].
    + destruct (CreateBookDTO.Validate c) eqn:Hv.
      * unfold usecases.CreateBook. rewrite Hv. exact Ht.
      * rewrite CreateBook_valid by exact Hv. unfold pg. simpl.
        apply Create_table_ok; [|exact Ht]. simpl.
        apply well_formed_TrimSpace, validate_spec_None_well_formed.
        now rewrite <- Create_Validate_spec.
    + destruct (UpdateBookDTO.Validate u) eqn:Hv.
      * unfold usecases.UpdateBook. rewrite Hv. exact Ht.
      * rewrite UpdateBook_valid by exact Hv. unfold pg. simpl.
        apply Update_table_ok; [|exact Ht]. simpl.
        apply validate_spec_None_well_formed.
        now rewrite <- Update_Validate_spec.
    + pose proof (Delete_table_ok e id t Ht) as Hd.
      unfold usecases.DeleteBook, bind, ret, pg. simpl.
      destruct (postgres.Delete e id t) as [[err|] t']; exact Hd.
    + unfold usecases.GetBookByID, bind, ret, pg. simpl.
      unfold postgres.GetByID.
      destruct (sqlx.GetContext e (select_by_id id t)); exact Ht.
    + unfold usecases.GetAllBooks, bind, ret, pg. simpl.
      unfold postgres.GetAll.
      destruct (sqlx.SelectContext e (select_all_ordered t)); exact Ht.
    + intros k r Hk. destruct (Ht k r Hk) as (H1 & H2 & H3).
      now rewrite <- !TrimSpace_not_nil.
  - apply map_Forall_empty.
  - unfold sample_data, row_ok, well_formed. simpl.
    repeat constructor; try discriminate; lia.
Qed.

Lemma C7_well_formed_witness :
  let e := mkEnv 12 4%N NoFault in
  let pg := postgres.NewPostgresBookRepository e in
  let c := CreateBookDTO.mk (runes "  Clean Code ") (runes "Robert Martin") 2008 in
  let u := UpdateBookDTO.mk (runes " Clean Code (2nd ed)") (runes "Robert Martin") 2008 in
  let t : table := {[ 1%N := mkRow (runes "Design Patterns") (runes "Gang of Four")
                                   1994 3 3 ]} in
  Forall write_ok (usecases.CreateBook (traced pg) 2%N c (t, [])).2.2
  /\ table_ok (usecases.CreateBook pg 2%N c t).2
  /\ table_ok (usecases.UpdateBook pg 1%N u t).2.
Proof.
  intros e pg c u t.
  destruct (C7_only_well_formed_books_are_persisted table pg t [] e t 2%N 1%N c u)
    as (Hlog & Htab & _).
  assert (Ht : table_ok t).
  { apply map_Forall_singleton. unfold row_ok, well_formed. simpl.
    repeat split; try discriminate; lia. }
  split; [exact (proj1 (Hlog (List.Forall_nil write_ok)))|].
  split; [exact (proj1 (Htab Ht))|exact (proj1 (proj2 (Htab Ht)))].
Defined.

(** ** Trimming on the create path only *)

Section trim_length.
Variable f : rune -> bool.

Lemma TrimLeftFunc_length (s : gostring) :
  (length (strings.TrimLeftFunc f s) <= length s)%nat.
Proof.
  induction s as [|r s IH]; simpl; [lia|].
  destruct (f r); simpl; lia.
Qed.

Lemma TrimLeftFunc_shorter (r : rune) (s : gostring) :
  f r = true -> (length (strings.TrimLeftFunc f (r :: s)) < length (r :: s))%nat.
Proof.
  intros H. simpl. rewrite H. pose proof (TrimLeftFunc_length s). lia.
Qed.

Lemma TrimFunc_length (s : gostring) :
  (length (strings.TrimFunc f s) <= length (strings.TrimLeftFunc f s))%nat.
Proof.
  unfold strings.TrimFunc, strings.TrimRightFunc. rewrite length_rev.
  etransitivity; [apply TrimLeftFunc_length|]. now rewrite length_rev.
Qed.
End trim_length.

Lemma surrounded_TrimSpace (s : gostring) :
  surrounded s = true <-> strings.TrimSpace s <> s.
Proof.
  unfold surrounded, strings.TrimSpace.
  destruct s as [|r s]; [cbv; split; [discriminate|intros H; now destruct H]|].
  destruct (unicode.IsSpace r) eqn:Er.
  - split; [intros _ E|reflexivity].
    pose proof (TrimFunc_length unicode.IsSpace (r :: s)) as H1.
    pose proof (TrimLeftFunc_shorter unicode.IsSpace r s Er) as H2.
    rewrite E in H1. lia.
  - unfold strings.TrimFunc, strings.TrimRightFunc.
    change (strings.TrimLeftFunc unicode.IsSpace (r :: s))
      with (if unicode.IsSpace r then strings.TrimLeftFunc unicode.IsSpace s
            else r :: s).
    rewrite Er. rewrite orb_false_l.
    destruct (rev (r :: s)) as [|x q] eqn:Eq.
    + apply (proj1 (rev_nil_iff _)) in Eq. discriminate Eq.
    + destruct (unicode.IsSpace x) eqn:Ex.
      * split; [intros _ E|reflexivity].
        pose proof (TrimLeftFunc_shorter unicode.IsSpace x q Ex) as H.
        apply (f_equal (@length rune)) in E. rewrite length_rev in E.
        rewrite E, <- Eq, length_rev in H. lia.
      * simpl strings.TrimLeftFunc. rewrite Ex, <- Eq, rev_involutive.
        split; [discriminate|congruence].
Qed.

Lemma existsb_rev (p : rune -> bool) (s : gostring) :
  existsb p (rev s) = existsb p s.
Proof.
  induction s as [|r s IH]; simpl; [reflexivity|].
  rewrite existsb_app, IH. simpl. rewrite orb_false_r. apply orb_comm.
Qed.

Lemma TrimLeftFunc_existsb (f p : rune -> bool) (s : gostring) :
  existsb p s = false -> existsb p (strings.TrimLeftFunc f s) = false.
Proof.
  induction s as [|r s IH]; simpl; [reflexivity|].
  intros H. apply orb_false_iff in H. destruct H as [Hr Hs].
  destruct (f r); [now apply IH|]. simpl. now rewrite Hr, Hs.
Qed.

Lemma fits_column_TrimSpace (s : gostring) :
  fits_column s -> fits_column (strings.TrimSpace s).
Proof.
  intros [H0 Hl]. unfold strings.TrimSpace. split.
  - unfold strings.TrimFunc, strings.TrimRightFunc.
    rewrite existsb_rev. apply TrimLeftFunc_existsb.
    rewrite existsb_rev. now apply TrimLeftFunc_existsb.
  - pose proof (TrimFunc_length unicode.IsSpace s).
    pose proof (TrimLeftFunc_length unicode.IsSpace s). lia.
Qed.

Lemma fits_column_varchar (s : gostring) :
  fits_column s -> varchar 255 s = Some s.
Proof. intros [H0 Hl]. now apply varchar_fits. Qed.

(** C10, as stated, fails on the persisted strings for a title of more than
    255 characters: the title made of 255 letters and one trailing space
    carries surrounding white space and is not white space only; UpdateBook
    passes it as supplied and CreateBook passes its trimmed form, but the
    VARCHAR(255) column cuts the trailing space, and both paths persist the
    same string. *)
Lemma C10_same_string_persisted_on_both_paths :
  let e := mkEnv 12 4%N NoFault in
  let pg := postgres.NewPostgresBookRepository e in
  let ti := replicate 255 97 ++ [32] in
  let au := runes "Alan Donovan" in
  let c := CreateBookDTO.mk ti au 2015 in
  let u := UpdateBookDTO.mk ti au 2015 in
  let t : table := {[ 1%N := mkRow (runes "Design Patterns") (runes "Gang of Four")
                                   1994 3 3 ]} in
  UpdateBookDTO.Validate u = None
  /\ surrounded ti = true
  /\ whitespace_only ti = false
  /\ (usecases.UpdateBook (traced pg) 1%N u (t, [])).2.2
     = [CallUpdate 1%N (mkBook 0%N ti au 2015 0 0)]
  /\ (title <$> (usecases.UpdateBook pg 1%N u t).2 !! 1%N)
     = Some (replicate 255 97)
  /\ (title <$> (usecases.CreateBook pg 2%N c t).2 !! 4%N)
     = Some (replicate 255 97).
Proof.
  repeat split; vm_compute; reflexivity.
Qed.

(** C10, amended.  For a valid request, UpdateBook hands title and author to
    the repository exactly as supplied, while CreateBook hands over their
    trimmed forms.  When title and author fit the VARCHAR(255) columns as they
    are (at most 255 characters, no U+0000), these are the strings the
    PostgreSQL repository stores; hence such a title (or author) that carries
    surrounding white space is persisted differently on the two paths. *)
Theorem C10_update_persists_untrimmed_strings :
  forall (St : Type) (repo : BookRepository St) (s : St) (log : list RepoCall)
         (e : StmtEnv) (t : table) (new_uuid id : UUID)
         (ti au : gostring) (y : Z),
    let c := CreateBookDTO.mk ti au y in
    let u := UpdateBookDTO.mk ti au y in
    let pg := postgres.NewPostgresBookRepository e in
    UpdateBookDTO.Validate u = None ->
    ((usecases.UpdateBook (traced repo) id u (s, log)).2.2
     = log ++ [CallUpdate id (mkBook 0%N ti au y 0 0)]
     /\ (usecases.CreateBook (traced repo) new_uuid c (s, log)).2.2
        = log ++ [CallCreate (mkBook new_uuid (strings.TrimSpace ti)
                                     (strings.TrimSpace au) y 0 0)])
    /\ (fault e = NoFault -> is_Some (t !! id) ->
        t !! uuid_generate_v4 e = None ->
        fits_column ti -> fits_column au ->
        (title <$> (usecases.UpdateBook pg id u t).2 !! id) = Some ti
        /\ (author <$> (usecases.UpdateBook pg id u t).2 !! id) = Some au
        /\ (title <$> (usecases.CreateBook pg new_uuid c t).2 !! uuid_generate_v4 e)
           = Some (strings.TrimSpace ti)
        /\ (author <$> (usecases.CreateBook pg new_uuid c t).2 !! uuid_generate_v4 e)
           = Some (strings.TrimSpace au))
    /\ (surrounded ti = true -> strings.TrimSpace ti <> ti)
    /\ (surrounded au = true -> strings.TrimSpace au <> au).
Proof.
  intros St repo s log e t new_uuid id ti au y c u pg Hu.
  assert (Hc : CreateBookDTO.Validate c = None).
  { rewrite Create_Validate_spec. rewrite Update_Validate_spec in Hu. exact Hu. }
  assert (Hy : integer y = Some y).
  { apply integer_year. rewrite Update_Validate_spec in Hu.
    apply validate_spec_cases in Hu. simpl in Hu. tauto. }
  split; [split|split; [|split]].
  - rewrite UpdateBook_valid by exact Hu.
    unfold traced; cbn [Update]. now rewrite logged_log.
  - rewrite CreateBook_valid by exact Hc.
    unfold traced; cbn [Create]. now rewrite logged_log.
  - intros Hf [old Hid] Hg Hti Hau.
    rewrite UpdateBook_valid by exact Hu.
    rewrite CreateBook_valid by exact Hc.
    unfold pg; cbn [Update Create postgres.NewPostgresBookRepository].
    rewrite (Update_NoFault e id _ t old ti au y Hf Hid).
    2: { apply columns_Some. simpl. auto using fits_column_varchar. }
    rewrite (Create_NoFault e _ t (strings.TrimSpace ti) (strings.TrimSpace au) y
               Hf Hg).
    2: { apply columns_Some. simpl.
         auto using fits_column_varchar, fits_column_TrimSpace. }
    cbn [snd]. rewrite !lookup_insert_eq. simpl. auto.
  - apply surrounded_TrimSpace.
  - apply surrounded_TrimSpace.
Qed.

Lemma C10_update_persists_untrimmed_witness :
  let e := mkEnv 12 4%N NoFault in
  let pg := postgres.NewPostgresBookRepository e in
  let ti := runes "  The Go Programming Language  " in
  let au := runes "  Alan Donovan  " in
  let c := CreateBookDTO.mk ti au 2015 in
  let u := UpdateBookDTO.mk ti au 2015 in
  let t : table := {[ 1%N := mkRow (runes "Design Patterns") (runes "Gang of Four")
                                   1994 3 3 ]} in
  (title <$> (usecases.UpdateBook pg 1%N u t).2 !! 1%N) = Some ti
  /\ (title <$> (usecases.CreateBook pg 2%N c t).2 !! 4%N)
     = Some (runes "The Go Programming Language")
  /\ strings.TrimSpace ti <> ti.
Proof.
  intros e pg ti au c u t.
  destruct (C10_update_persists_untrimmed_strings
              table pg t [] e t 2%N 1%N ti au 2015 eq_refl)
    as (_ & Hstore & Hti & _).
  assert (Hfit : forall s, existsb (Z.eqb 0) s = false ->
                           (length s <=? 255)%nat = true -> fits_column s).
  { intros s0 H0 Hl. split; [exact H0|now apply Nat.leb_le]. }
  destruct (Hstore eq_refl (ex_intro _ _ eq_refl) eq_refl
              (Hfit ti eq_refl eq_refl) (Hfit au eq_refl eq_refl))
    as (H1 & _ & H3 & _).
  split; [exact H1|]. split; [exact H3|]. apply Hti. reflexivity.
Defined.

(** * Further properties of the code *)

(** ** Entities *)

Lemma Validate_None_fields (dto : CreateBookDTO.t) :
  CreateBookDTO.Validate dto = None ->
  strings.TrimSpace (CreateBookDTO.Title dto) <> []
  /\ strings.TrimSpace (CreateBookDTO.Author dto) <> []
  /\ 1000 <= CreateBookDTO.Year dto <= 2034.
Proof.
  rewrite Create_Validate_spec. apply validate_spec_None_well_formed.
Qed.

Lemma year_in_bound (y : Z) :
  1000 <= y <= 2034 -> (y <? 1000) || (y >? 2034) = false.
Proof.
  intros H. rewrite year_check. apply bool_decide_eq_false. lia.
Qed.

Lemma is_empty_false (s : gostring) : s <> [] -> is_empty s = false.
Proof. destruct s; [congruence|reflexivity]. Qed.

(** X1. The book [ToBook] builds from a creation request that passed
    [Validate] also passes [ValidateBookData]. *)
Theorem X1_ToBook_of_valid_request_passes_ValidateBookData :
  forall (new_uuid : UUID) (dto : CreateBookDTO.t),
    CreateBookDTO.Validate dto = None ->
    ValidateBookData (CreateBookDTO.ToBook new_uuid dto) = None.
Proof.
  intros new_uuid dto Hv. apply Validate_None_fields in Hv.
  destruct Hv as (Ht & Ha & Hy).
  unfold ValidateBookData, CreateBookDTO.ToBook. simpl.
  now rewrite (is_empty_false _ Ht), (is_empty_false _ Ha), (year_in_bound _ Hy).
Qed.

Lemma X1_ToBook_witness :
  ValidateBookData
    (CreateBookDTO.ToBook 42%N
       (CreateBookDTO.mk (runes "  Clean Code ") (runes "Robert Martin") 2008))
  = None.
Proof.
  apply X1_ToBook_of_valid_request_passes_ValidateBookData. reflexivity.
Defined.

(** X2. [ValidateBookData] does not trim: a book whose title is not empty but
    consists of white space only is accepted by it (given a non-empty author
    and a year within the bound), while [Validate] rejects a request with the
    same fields as InvalidTitle. *)
Theorem X2_ValidateBookData_accepts_blank_title :
  forall (b : Book),
    Title b <> [] -> whitespace_only (Title b) = true ->
    Author b <> [] -> 1000 <= Year b <= 2034 ->
    ValidateBookData b = None
    /\ CreateBookDTO.Validate (CreateBookDTO.mk (Title b) (Author b) (Year b))
       = Some ErrInvalidTitle
    /\ UpdateBookDTO.Validate (UpdateBookDTO.mk (Title b) (Author b) (Year b))
       = Some ErrInvalidTitle.
Proof.
  intros b Ht Hw Ha Hy. split; [|split].
  - unfold ValidateBookData.
    now rewrite (is_empty_false _ Ht), (is_empty_false _ Ha), (year_in_bound _ Hy).
  - rewrite Create_Validate_spec. unfold validate_spec. simpl. now rewrite Hw.
  - rewrite Update_Validate_spec. unfold validate_spec. simpl. now rewrite Hw.
Qed.

Lemma X2_ValidateBookData_witness :
  let b := mkBook 1%N (runes "   ") (runes "Alan Donovan") 2015 0 0 in
  ValidateBookData b = None
  /\ CreateBookDTO.Validate (CreateBookDTO.mk (Title b) (Author b) (Year b))
     = Some ErrInvalidTitle
  /\ UpdateBookDTO.Validate (UpdateBookDTO.mk (Title b) (Author b) (Year b))
     = Some ErrInvalidTitle.
Proof.
  intros b. apply X2_ValidateBookData_accepts_blank_title; simpl;
    try discriminate; try reflexivity; lia.
Defined.

Section trim_idempotent.
Variable f : rune -> bool.

Lemma TrimLeftFunc_head (s : gostring) :
  match strings.TrimLeftFunc f s with
  | [] => True
  | r :: _ => f r = false
  end.
Proof.
  induction s as [|r s IH]; simpl; [exact I|].
  destruct (f r) eqn:E; [exact IH|exact E].
Qed.

Lemma TrimLeftFunc_fixed (s : gostring) :
  match s with [] => True | r :: _ => f r = false end ->
  strings.TrimLeftFunc f s = s.
Proof. destruct s as [|r s]; simpl; [reflexivity|]. now intros ->. Qed.

Lemma TrimLeftFunc_split (s : gostring) :
  exists pre, s = pre ++ strings.TrimLeftFunc f s /\ forallb f pre = true.
Proof.
  induction s as [|r s (pre & Hs & Hp)]; simpl; [now exists []|].
  destruct (f r) eqn:E.
  - exists (r :: pre). simpl. rewrite E, Hp. split; [now f_equal|reflexivity].
  - now exists [].
Qed.

Lemma TrimRightFunc_head (s : gostring) :
  match s with [] => True | r :: _ => f r = false end ->
  match strings.TrimRightFunc f s with [] => True | r :: _ => f r = false end.
Proof.
  intros Hs. unfold strings.TrimRightFunc.
  destruct (TrimLeftFunc_split (rev s)) as (pre & Hrev & Hpre).
  apply (f_equal (@rev rune)) in Hrev.
  rewrite rev_involutive, rev_app_distr in Hrev.
  destruct (rev (strings.TrimLeftFunc f (rev s))) as [|x w]; [exact I|].
  rewrite Hrev in Hs. exact Hs.
Qed.

Lemma TrimFunc_idempotent (s : gostring) :
  strings.TrimFunc f (strings.TrimFunc f s) = strings.TrimFunc f s.
Proof.
  unfold strings.TrimFunc at 1.
  assert (Hh : match strings.TrimFunc f s with
               | [] => True | r :: _ => f r = false end).
  { unfold strings.TrimFunc. apply TrimRightFunc_head, TrimLeftFunc_head. }
  rewrite (TrimLeftFunc_fixed _ Hh).
  unfold strings.TrimFunc, strings.TrimRightFunc.
  rewrite rev_involutive.
  now rewrite (TrimLeftFunc_fixed _ (TrimLeftFunc_head _)).
Qed.
End trim_idempotent.

(** X3. Trimming is idempotent and leaves no white space at either end.
    Hence the title and author of the book [ToBook] builds neither start nor
    end with white space, and a request and its trimmed form give the same
    book. *)
Theorem X3_ToBook_normalises_title_and_author :
  forall (new_uuid : UUID) (dto : CreateBookDTO.t) (s : gostring),
    strings.TrimSpace (strings.TrimSpace s) = strings.TrimSpace s
    /\ surrounded (strings.TrimSpace s) = false
    /\ surrounded (Title (CreateBookDTO.ToBook new_uuid dto)) = false
    /\ surrounded (Author (CreateBookDTO.ToBook new_uuid dto)) = false
    /\ CreateBookDTO.ToBook new_uuid
         (CreateBookDTO.mk (strings.TrimSpace (CreateBookDTO.Title dto))
                           (strings.TrimSpace (CreateBookDTO.Author dto))
                           (CreateBookDTO.Year dto))
       = CreateBookDTO.ToBook new_uuid dto.
Proof.
  assert (Hidem : forall s, strings.TrimSpace (strings.TrimSpace s)
                            = strings.TrimSpace s)
    by (intros s; apply TrimFunc_idempotent).
  assert (Hsur : forall s, surrounded (strings.TrimSpace s) = false).
  { intros s. destruct (surrounded (strings.TrimSpace s)) eqn:E; [|reflexivity].
    apply surrounded_TrimSpace in E. now rewrite Hidem in E. }
  intros new_uuid dto s. repeat split; auto.
  - apply (Hsur (CreateBookDTO.Title dto)).
  - apply (Hsur (CreateBookDTO.Author dto)).
  - unfold CreateBookDTO.ToBook.
    cbn [CreateBookDTO.Title CreateBookDTO.Author CreateBookDTO.Year].
    now rewrite !Hidem.
Qed.

(** ** Use cases *)

(** X4. The use cases add nothing to what the repository answers: GetBookByID,
    GetAllBooks and DeleteBook return the result and the store of the
    repository call unchanged, and so do CreateBook and UpdateBook once the
    request has passed validation. *)
Theorem X4_use_cases_propagate_repository_results :
  forall (St : Type) (repo : BookRepository St) (s : St) (new_uuid id : UUID)
         (c : CreateBookDTO.t) (u : UpdateBookDTO.t),
    usecases.GetBookByID repo id s = GetByID repo id s
    /\ usecases.GetAllBooks repo s = GetAll repo s
    /\ usecases.DeleteBook repo id s = Delete repo id s
    /\ (CreateBookDTO.Validate c = None ->
        usecases.CreateBook repo new_uuid c s
        = Create repo (CreateBookDTO.ToBook new_uuid c) s)
    /\ (UpdateBookDTO.Validate u = None ->
        usecases.UpdateBook repo id u s
        = Update repo id (mkBook 0%N (UpdateBookDTO.Title u) (UpdateBookDTO.Author u)
                                 (UpdateBookDTO.Year u) 0 0) s).
Proof.
  intros St repo s new_uuid id c u.
  split; [|split; [|split; [|split]]].
  - unfold usecases.GetBookByID, bind, ret.
    now destruct (GetByID repo id s) as [[b|err] s'].
  - unfold usecases.GetAllBooks, bind, ret.
    now destruct (GetAll repo s) as [[b|err] s'].
  - unfold usecases.DeleteBook, bind, ret.
    now destruct (Delete repo id s) as [[err|] s'].
  - apply CreateBook_valid.
  - apply UpdateBook_valid.
Qed.

Lemma X4_use_cases_witness :
  let e := mkEnv 12 4%N FailScan in
  let pg := postgres.NewPostgresBookRepository e in
  let c := CreateBookDTO.mk (runes "Clean Code") (runes "Robert Martin") 2008 in
  usecases.CreateBook pg 2%N c ∅ = Create pg (CreateBookDTO.ToBook 2%N c) ∅.
Proof.
  intros e pg c.
  exact (proj1 (proj2 (proj2 (proj2
    (X4_use_cases_propagate_repository_results table pg ∅ 2%N 1%N c
       (UpdateBookDTO.mk [] [] 0))))) eq_refl).
Defined.

(** ** The store behind the use cases *)

Lemma GetByID_present (e : StmtEnv) (id : UUID) (t : table) (r : row) :
  fault e = NoFault -> t !! id = Some r ->
  postgres.GetByID e id t = (Ok (to_Book id r), t).
Proof.
  intros Hf Hid. unfold postgres.GetByID, sqlx.GetContext, select_by_id.
  now rewrite Hf, Hid.
Qed.

Lemma GetBookByID_pg (e : StmtEnv) (id : UUID) (t : table) :
  usecases.GetBookByID (postgres.NewPostgresBookRepository e) id t
  = postgres.GetByID e id t.
Proof.
  unfold usecases.GetBookByID, bind, ret. simpl.
  now destruct (postgres.GetByID e id t) as [[b|err] t'].
Qed.

(** The create path never has its strings cut: a trimmed string does not end
    with a space. *)
Lemma varchar_TrimSpace (n : nat) (s x : gostring) :
  varchar n (strings.TrimSpace s) = Some x -> x = strings.TrimSpace s.
Proof.
  intros H. apply varchar_Some in H.
  destruct H as [_ [[-> _]|(_ & Hlen & Hsp)]]; [reflexivity|exfalso].
  assert (Hsur : surrounded (strings.TrimSpace s) = true).
  { unfold surrounded. apply orb_true_iff. right.
    set (s' := strings.TrimSpace s) in *.
    rewrite <- (take_drop n s'), rev_app_distr.
    destruct (rev (drop n s')) as [|x0 q] eqn:Er.
    - apply (f_equal (@length rune)) in Er.
      rewrite length_rev, length_drop in Er. simpl in Er. lia.
    - simpl. assert (Hin : In x0 (drop n s')).
      { apply in_rev. rewrite Er. now left. }
      rewrite forallb_forall in Hsp. specialize (Hsp x0 Hin).
      apply Z.eqb_eq in Hsp. now subst. }
  apply surrounded_TrimSpace in Hsur. apply Hsur.
  apply TrimFunc_idempotent.
Qed.

Lemma columns_create (new_uuid : UUID) (dto : CreateBookDTO.t)
    (ti au : gostring) (y : Z) :
  columns (CreateBookDTO.ToBook new_uuid dto) = Some (ti, au, y) ->
  ti = strings.TrimSpace (CreateBookDTO.Title dto)
  /\ au = strings.TrimSpace (CreateBookDTO.Author dto)
  /\ y = CreateBookDTO.Year dto.
Proof.
  intros Hc. apply columns_Some in Hc. simpl in Hc.
  destruct Hc as (Ht & Ha & Hy).
  apply varchar_TrimSpace in Ht. apply varchar_TrimSpace in Ha.
  apply integer_Some in Hy. auto.
Qed.

Lemma CreateBook_pg_success (e : StmtEnv) (new_uuid : UUID)
    (dto : CreateBookDTO.t) (t : table) :
  CreateBookDTO.Validate dto = None -> fault e = NoFault ->
  t !! uuid_generate_v4 e = None ->
  fits_column (CreateBookDTO.Title dto) ->
  fits_column (CreateBookDTO.Author dto) ->
  let r := mkRow (strings.TrimSpace (CreateBookDTO.Title dto))
                 (strings.TrimSpace (CreateBookDTO.Author dto))
                 (CreateBookDTO.Year dto) (now e) (now e) in
  usecases.CreateBook (postgres.NewPostgresBookRepository e) new_uuid dto t
  = (Ok (to_Book (uuid_generate_v4 e) r), <[uuid_generate_v4 e := r]> t).
Proof.
  intros Hv Hf Hg Hti Hau r. rewrite CreateBook_valid by exact Hv.
  cbn [Create postgres.NewPostgresBookRepository].
  apply (Create_NoFault e _ t _ _ _ Hf Hg).
  apply columns_Some. simpl.
  split; [now apply fits_column_varchar, fits_column_TrimSpace|].
  split; [now apply fits_column_varchar, fits_column_TrimSpace|].
  apply integer_year. apply Validate_None_fields in Hv. tauto.
Qed.

(** Every success of CreateBook on the PostgreSQL repository. *)
Lemma CreateBook_pg_Ok_inv (e : StmtEnv) (new_uuid : UUID)
    (dto : CreateBookDTO.t) (t t' : table) (b : Book) :
  usecases.CreateBook (postgres.NewPostgresBookRepository e) new_uuid dto t
  = (Ok b, t') ->
  let r := mkRow (strings.TrimSpace (CreateBookDTO.Title dto))
                 (strings.TrimSpace (CreateBookDTO.Author dto))
                 (CreateBookDTO.Year dto) (now e) (now e) in
  CreateBookDTO.Validate dto = None
  /\ t !! uuid_generate_v4 e = None
  /\ t' = <[uuid_generate_v4 e := r]> t
  /\ ((fault e = NoFault /\ b = to_Book (uuid_generate_v4 e) r)
      \/ (fault e = FailResult /\ b = zero_Book)).
Proof.
  intros H r. destruct (CreateBookDTO.Validate dto) eqn:Hv.
  { unfold usecases.CreateBook in H. rewrite Hv in H. discriminate H. }
  rewrite CreateBook_valid in H by exact Hv.
  cbn [Create postgres.NewPostgresBookRepository] in H.
  unfold postgres.Create, sqlx.NamedQueryContext, insert_returning in H.
  destruct (columns (CreateBookDTO.ToBook new_uuid dto)) as [[[ti au] y]|] eqn:Hc.
  2: { destruct (fault e); discriminate H. }
  apply columns_create in Hc. destruct Hc as (-> & -> & ->).
  destruct (t !! uuid_generate_v4 e) eqn:Hg.
  { destruct (fault e); discriminate H. }
  destruct (fault e) eqn:Hf; simpl in H; inversion H; subst;
    (split; [reflexivity|split; [reflexivity|split; [reflexivity|]]]);
    [left|right]; split; reflexivity.
Qed.

Lemma UpdateBook_pg_success (e : StmtEnv) (id : UUID) (dto : UpdateBookDTO.t)
    (t : table) (old : row) (ti au : gostring) :
  UpdateBookDTO.Validate dto = None -> fault e = NoFault ->
  t !! id = Some old ->
  varchar 255 (UpdateBookDTO.Title dto) = Some ti ->
  varchar 255 (UpdateBookDTO.Author dto) = Some au ->
  let r := mkRow ti au (UpdateBookDTO.Year dto) (created_at old) (now e) in
  usecases.UpdateBook (postgres.NewPostgresBookRepository e) id dto t
  = (Ok (to_Book id r), <[id := r]> t).
Proof.
  intros Hv Hf Hid Hti Hau r. rewrite UpdateBook_valid by exact Hv.
  cbn [Update postgres.NewPostgresBookRepository].
  apply (Update_NoFault e id _ t old _ _ _ Hf Hid).
  now apply columns_update.
Qed.

(** Every success of UpdateBook on the PostgreSQL repository. *)
Lemma UpdateBook_pg_Ok_inv (e : StmtEnv) (id : UUID) (dto : UpdateBookDTO.t)
    (t t' : table) (b : Book) :
  usecases.UpdateBook (postgres.NewPostgresBookRepository e) id dto t
  = (Ok b, t') ->
  exists old ti au,
    UpdateBookDTO.Validate dto = None /\ fault e = NoFault
    /\ t !! id = Some old
    /\ varchar 255 (UpdateBookDTO.Title dto) = Some ti
    /\ varchar 255 (UpdateBookDTO.Author dto) = Some au
    /\ b = to_Book id (mkRow ti au (UpdateBookDTO.Year dto)
                             (created_at old) (now e))
    /\ t' = <[id := mkRow ti au (UpdateBookDTO.Year dto)
                          (created_at old) (now e)]> t.
Proof.
  intros H. destruct (UpdateBookDTO.Validate dto) eqn:Hv.
  { unfold usecases.UpdateBook in H. rewrite Hv in H. discriminate H. }
  rewrite UpdateBook_valid in H by exact Hv.
  cbn [Update postgres.NewPostgresBookRepository] in H.
  unfold postgres.Update, sqlx.NamedQueryContext, update_returning in H.
  match type of H with
  | context [columns ?bk] => destruct (columns bk) as [[[ti au] y]|] eqn:Hc
  end.
  2: { destruct (fault e); discriminate H. }
  apply columns_Some in Hc. simpl in Hc. destruct Hc as (Hti & Hau & Hy).
  apply integer_Some in Hy. subst y. simpl in H.
  destruct (t !! id) as [old|] eqn:Hid.
  2: { destruct (fault e); discriminate H. }
  destruct (fault e) eqn:Hf; simpl in H; inversion H; subst.
  exists old, ti, au. repeat split; auto.
Qed.

(** X5. Every success of CreateBook is one of two: either the row was read
    back without failure, and then the returned book is the stored row (its id
    is the one the store generated, created_at and updated_at are both the
    store's current timestamp, title and author are the trimmed inputs, year
    is the input); or the result set delivered no row, and the returned book
    is the zero value.  In both cases the request was valid, the generated id
    was fresh and the table gained exactly the stored row.  The uuid [ToBook]
    draws plays no part in the result. *)
Theorem X5_CreateBook_returns_store_assigned_fields :
  forall (e : StmtEnv) (new_uuid other_uuid : UUID) (dto : CreateBookDTO.t)
         (t t' : table) (b : Book),
    let pg := postgres.NewPostgresBookRepository e in
    usecases.CreateBook pg new_uuid dto t = (Ok b, t') ->
    let r := mkRow (strings.TrimSpace (CreateBookDTO.Title dto))
                   (strings.TrimSpace (CreateBookDTO.Author dto))
                   (CreateBookDTO.Year dto) (now e) (now e) in
    CreateBookDTO.Validate dto = None
    /\ t !! uuid_generate_v4 e = None
    /\ t' = <[uuid_generate_v4 e := r]> t
    /\ usecases.CreateBook pg other_uuid dto t = (Ok b, t')
    /\ ((fault e = NoFault
         /\ ID b = uuid_generate_v4 e
         /\ CreatedAt b = now e /\ UpdatedAt b = now e
         /\ Title b = strings.TrimSpace (CreateBookDTO.Title dto)
         /\ Author b = strings.TrimSpace (CreateBookDTO.Author dto)
         /\ Year b = CreateBookDTO.Year dto)
        \/ (fault e = FailResult /\ b = zero_Book)).
Proof.
  intros e new_uuid other_uuid dto t t' b pg H r.
  destruct (CreateBook_pg_Ok_inv e new_uuid dto t t' b H) as (Hv & Hg & Ht & Hb).
  split; [exact Hv|]. split; [exact Hg|]. split; [exact Ht|]. split.
  - rewrite <- H. unfold pg. rewrite !CreateBook_valid by exact Hv. reflexivity.
  - destruct Hb as [[Hf ->]|[Hf ->]]; [left|right]; repeat split; auto.
Qed.

Lemma X5_CreateBook_witness :
  let e := mkEnv 12 4%N NoFault in
  let pg := postgres.NewPostgresBookRepository e in
  let dto := CreateBookDTO.mk (runes " Clean Code ") (runes "Robert Martin") 2008 in
  let b := mkBook 4%N (runes "Clean Code") (runes "Robert Martin") 2008 12 12 in
  let t' : table := {[ 4%N := mkRow (runes "Clean Code") (runes "Robert Martin")
                                    2008 12 12 ]} in
  usecases.CreateBook pg 2%N dto ∅ = (Ok b, t')
  /\ usecases.CreateBook pg 3%N dto ∅ = (Ok b, t').
Proof.
  intros e pg dto b t'.
  assert (H : usecases.CreateBook pg 2%N dto ∅ = (Ok b, t'))
    by (vm_compute; reflexivity).
  split; [exact H|].
  exact (proj1 (proj2 (proj2 (proj2
    (X5_CreateBook_returns_store_assigned_fields e 2%N 3%N dto ∅ t' b H))))).
Defined.

Lemma to_Book_not_zero (t : table) (id : UUID) (r : row) :
  table_ok t -> t !! id = Some r -> to_Book id r <> zero_Book.
Proof.
  intros Ht Hr Hz. destruct (Ht id r Hr) as (Hti & _).
  apply Hti. apply (f_equal Title) in Hz.
  unfold to_Book, zero_Book in Hz. cbn [Title] in Hz. now rewrite Hz.
Qed.

(** X6. Round trip after a successful CreateBook.  The row it stored can be
    read back: GetBookByID of the generated id returns it and GetAllBooks
    lists it.  The book CreateBook returned is that stored row, and so is
    read back, exactly when the result set was read without failure.
    Otherwise (the result set delivered no row) the returned book is the zero
    value: it differs from the stored row and, in a table of well-formed
    rows, it is neither what GetBookByID of its id returns nor listed. *)
Theorem X6_created_book_can_be_read_back :
  forall (e e1 e2 : StmtEnv) (new_uuid : UUID) (dto : CreateBookDTO.t)
         (t t' : table) (b : Book),
    usecases.CreateBook (postgres.NewPostgresBookRepository e) new_uuid dto t
    = (Ok b, t') ->
    fault e1 = NoFault -> fault e2 = NoFault ->
    let stored := to_Book (uuid_generate_v4 e)
                    (mkRow (strings.TrimSpace (CreateBookDTO.Title dto))
                           (strings.TrimSpace (CreateBookDTO.Author dto))
                           (CreateBookDTO.Year dto) (now e) (now e)) in
    exists books,
      usecases.GetAllBooks (postgres.NewPostgresBookRepository e2) t'
      = (Ok books, t')
      /\ usecases.GetBookByID (postgres.NewPostgresBookRepository e1)
           (ID stored) t'
         = (Ok stored, t')
      /\ stored ∈ books
      /\ (fault e = NoFault ->
          b = stored
          /\ usecases.GetBookByID (postgres.NewPostgresBookRepository e1)
               (ID b) t'
             = (Ok b, t')
          /\ b ∈ books)
      /\ (fault e <> NoFault ->
          b = zero_Book /\ b <> stored
          /\ (table_ok t ->
              (usecases.GetBookByID (postgres.NewPostgresBookRepository e1)
                 (ID b) t').1 <> Ok b
              /\ b ∉ books)).
Proof.
  intros e e1 e2 new_uuid dto t t' b H Hf1 Hf2 stored.
  destruct (CreateBook_pg_Ok_inv e new_uuid dto t t' b H) as (Hv & Hg & -> & Hb).
  set (g := uuid_generate_v4 e) in *.
  set (r := mkRow (strings.TrimSpace (CreateBookDTO.Title dto))
                  (strings.TrimSpace (CreateBookDTO.Author dto))
                  (CreateBookDTO.Year dto) (now e) (now e)) in *.
  assert (Hget : usecases.GetBookByID (postgres.NewPostgresBookRepository e1)
                   (ID stored) (<[g := r]> t)
                 = (Ok stored, <[g := r]> t)).
  { rewrite GetBookByID_pg.
    apply GetByID_present; [exact Hf1|apply lookup_insert_eq]. }
  assert (Hin : stored ∈ select_all_ordered (<[g := r]> t)).
  { unfold select_all_ordered. rewrite merge_sort_Permutation.
    apply books_of_elem. exists r. split; [apply lookup_insert_eq|reflexivity]. }
  assert (Hnz : zero_Book <> stored).
  { intros Hz. destruct (Validate_None_fields dto Hv) as (Hti & _).
    apply Hti. apply (f_equal Title) in Hz.
    unfold stored, to_Book, zero_Book, r in Hz. cbn [Title title] in Hz.
    now rewrite <- Hz. }
  exists (select_all_ordered (<[g := r]> t)).
  split; [|split; [exact Hget|split; [exact Hin|split]]].
  - unfold usecases.GetAllBooks, bind, ret. simpl.
    unfold postgres.GetAll, sqlx.SelectContext. now rewrite Hf2.
  - intros Hf. destruct Hb as [[_ ->]|[Hf' _]]; [|congruence].
    split; [reflexivity|]. split; [exact Hget|exact Hin].
  - intros Hf. destruct Hb as [[Hf' _]|[_ ->]]; [congruence|].
    split; [reflexivity|]. split; [exact Hnz|]. intros Hok.
    assert (Hok' : table_ok (<[g := r]> t)).
    { apply map_Forall_insert_2; [|exact Hok].
      destruct (Validate_None_fields dto Hv) as (Hti & Hau & Hy).
      unfold row_ok, well_formed. simpl.
      auto using TrimSpace_TrimSpace_not_nil. }
    split.
    + rewrite GetBookByID_pg.
      unfold postgres.GetByID, sqlx.GetContext, select_by_id. rewrite Hf1.
      destruct (<[g := r]> t !! ID zero_Book) as [r0|] eqn:E0; simpl;
        [|discriminate].
      intros Heq. apply (to_Book_not_zero _ _ _ Hok' E0).
      exact (f_equal (fun x => match x with Ok y => y | Err _ => zero_Book end)
               Heq).
    + unfold select_all_ordered. rewrite merge_sort_Permutation.
      intros Hel. apply books_of_elem in Hel. destruct Hel as (r0 & E0 & Hz).
      exact (to_Book_not_zero _ _ _ Hok' E0 (eq_sym Hz)).
Qed.

Lemma X6_created_book_witness :
  let e := mkEnv 12 4%N NoFault in
  let pg := postgres.NewPostgresBookRepository e in
  let dto := CreateBookDTO.mk (runes "Clean Code") (runes "Robert Martin") 2008 in
  let b := mkBook 4%N (runes "Clean Code") (runes "Robert Martin") 2008 12 12 in
  let t' : table := {[ 4%N := mkRow (runes "Clean Code") (runes "Robert Martin")
                                    2008 12 12 ]} in
  usecases.CreateBook pg 2%N dto ∅ = (Ok b, t')
  /\ usecases.GetBookByID pg (ID b) t' = (Ok b, t').
Proof.
  intros e pg dto b t'.
  assert (H : usecases.CreateBook pg 2%N dto ∅ = (Ok b, t'))
    by (vm_compute; reflexivity).
  split; [exact H|].
  destruct (X6_created_book_can_be_read_back e e e 2%N dto ∅ t' b H
              eq_refl eq_refl) as (books & _ & _ & _ & Hread & _).
  exact (proj1 (proj2 (Hread eq_refl))).
Defined.

Lemma Create_only_DatabaseError (e : StmtEnv) (book : Book) (t : table) (err : error) :
  (postgres.Create e book t).1 = Err err -> err = ErrDatabaseError.
Proof.
  unfold postgres.Create, sqlx.NamedQueryContext, insert_returning.
  destruct (columns book) as [[[ti au] y]|];
    [destruct (t !! uuid_generate_v4 e)|];
    destruct (fault e); simpl; congruence.
Qed.

(** X7. The only error [Create] returns is DatabaseError.  It returns it, and
    the table is left as it was, whenever the statement itself is refused:
    the generated id is already a primary key (the existing row is not
    overwritten), or a column does not accept the value it is given.
    DatabaseError does not tell that nothing was written: when the driver
    call fails after the statement was carried out, or the scan of the
    returned row fails, the error is DatabaseError and the row is stored. *)
Theorem X7_Create_fails_only_with_DatabaseError :
  forall (e : StmtEnv) (book : Book) (t : table),
    (forall err, (postgres.Create e book t).1 = Err err -> err = ErrDatabaseError)
    /\ (is_Some (t !! uuid_generate_v4 e) \/ columns book = None ->
        postgres.Create e book t = (Err ErrDatabaseError, t))
    /\ (forall ti au y,
          columns book = Some (ti, au, y) ->
          t !! uuid_generate_v4 e = None ->
          fault e = FailScan \/ (fault e = FailCall /\ applied e = true) ->
          postgres.Create e book t
          = (Err ErrDatabaseError,
             <[uuid_generate_v4 e := mkRow ti au y (now e) (now e)]> t)).
Proof.
  intros e book t. split; [apply Create_only_DatabaseError|].
  unfold postgres.Create, sqlx.NamedQueryContext, insert_returning. split.
  - intros [[r Hr]|Hc].
    + rewrite Hr. destruct (columns book) as [[[ti au] y]|];
        now destruct (fault e), (applied e).
    + rewrite Hc. now destruct (fault e), (applied e).
  - intros ti au y Hc Hg [Hf|[Hf Ha]]; rewrite Hf, Hc, Hg; [reflexivity|].
    now rewrite Ha.
Qed.

Lemma X7_Create_witness :
  let e := mkEnv 12 1%N NoFault in
  let e' := mkStmtEnv 12 2%N FailCall true in
  let old := mkRow (runes "Design Patterns") (runes "Gang of Four") 1994 3 3 in
  let t : table := {[ 1%N := old ]} in
  let book := mkBook 0%N (runes "Clean Code") (runes "Robert Martin") 2008 0 0 in
  postgres.Create e book t = (Err ErrDatabaseError, t)
  /\ postgres.Create e' book t
     = (Err ErrDatabaseError,
        <[2%N := mkRow (runes "Clean Code") (runes "Robert Martin") 2008 12 12]> t).
Proof.
  intros e e' old t book. split.
  - apply (X7_Create_fails_only_with_DatabaseError e book t).
    left. exists old. reflexivity.
  - apply (X7_Create_fails_only_with_DatabaseError e' book t);
      [reflexivity|reflexivity|right; split; reflexivity].
Defined.

Lemma Delete_state (e : StmtEnv) (id : UUID) (t : table) :
  (postgres.Delete e id t).2 = t \/ (postgres.Delete e id t).2 = delete id t.
Proof.
  rewrite Delete_outcome. unfold delete_by_id.
  destruct (fault e), (applied e), (t !! id); simpl; auto.
Qed.

(** X8. [Update] touches one row at most: whatever the store does, every row
    with another id is left as it was, no row appears or disappears (an
    unknown id is never inserted), and the row's created_at is kept. *)
Theorem X8_Update_changes_only_the_addressed_row :
  forall (e : StmtEnv) (id : UUID) (book : Book) (t : table),
    let t' := (postgres.Update e id book t).2 in
    (forall k, k <> id -> t' !! k = t !! k)
    /\ (forall k, is_Some (t' !! k) <-> is_Some (t !! k))
    /\ size t' = size t
    /\ (created_at <$> t' !! id) = (created_at <$> t !! id).
Proof.
  intros e id book t t'. subst t'.
  destruct (Update_state e id book t)
    as [->|(ti & au & y & old & _ & Hid & ->)].
  - repeat split; auto.
  - split; [|split; [|split]].
    + intros k Hk. now apply lookup_insert_ne.
    + intros k. destruct (decide (k = id)) as [->|Hk].
      * rewrite lookup_insert_eq, Hid. split; eauto.
      * now rewrite lookup_insert_ne.
    + rewrite <- (insert_id t id old Hid) at 2.
      now rewrite !map_size_insert.
    + now rewrite lookup_insert_eq, Hid.
Qed.

Lemma size_delete_S (t : table) (id : UUID) (r : row) :
  t !! id = Some r -> size t = S (size (delete id t)).
Proof.
  intros H. rewrite <- (insert_id t id r H) at 1.
  rewrite <- insert_delete_eq. apply map_size_insert_None, lookup_delete_eq.
Qed.

(** X9. [Delete] removes one row at most: rows with another id are left as
    they were; when the use case succeeds the table has exactly one row less;
    and deleting the same id again, with no storage failure, yields
    BookNotFound. *)
Theorem X9_Delete_removes_only_the_addressed_row :
  forall (e e' : StmtEnv) (id : UUID) (t : table),
    let pg := postgres.NewPostgresBookRepository e in
    let pg' := postgres.NewPostgresBookRepository e' in
    let t' := (usecases.DeleteBook pg id t).2 in
    (forall k, k <> id -> t' !! k = t !! k)
    /\ ((usecases.DeleteBook pg id t).1 = None ->
        size t = S (size t')
        /\ (fault e' <> FailCall -> fault e' <> FailResult ->
            usecases.DeleteBook pg' id t' = (Some ErrBookNotFound, t'))).
Proof.
  intros e e' id t pg pg' t'.
  assert (Hd : forall e0 t0, usecases.DeleteBook
                 (postgres.NewPostgresBookRepository e0) id t0
               = postgres.Delete e0 id t0).
  { intros e0 t0. unfold usecases.DeleteBook, bind, ret. simpl.
    now destruct (postgres.Delete e0 id t0) as [[err|] t1]. }
  subst t' pg pg'. rewrite !Hd. split.
  - intros k Hk. destruct (Delete_state e id t) as [->| ->]; [reflexivity|].
    now apply lookup_delete_ne.
  - rewrite Delete_outcome.
    destruct (fault e) eqn:Ef, (t !! id) as [r|] eqn:Et; simpl;
      try discriminate; intros _.
    all: split; [now apply (size_delete_S t id r)
                |intros H1 H2; rewrite Delete_outcome, lookup_delete_eq;
                 now destruct (fault e')].
Qed.

Lemma X9_Delete_witness :
  let e := mkEnv 9 5%N NoFault in
  let pg := postgres.NewPostgresBookRepository e in
  let t : table :=
    <[ 1%N := mkRow (runes "Book 1") (runes "Author 1") 2020 10 10 ]>
      (<[ 2%N := mkRow (runes "Book 2") (runes "Author 2") 2021 30 30 ]> ∅) in
  size t = S (size (usecases.DeleteBook pg 1%N t).2)
  /\ usecases.DeleteBook pg 1%N (usecases.DeleteBook pg 1%N t).2
     = (Some ErrBookNotFound, (usecases.DeleteBook pg 1%N t).2).
Proof.
  intros e pg t.
  destruct (X9_Delete_removes_only_the_addressed_row e e 1%N t) as [_ H].
  assert (Hok : (usecases.DeleteBook pg 1%N t).1 = None)
    by (vm_compute; reflexivity).
  destruct (H Hok) as [Hsize Hagain].
  split; [exact Hsize|]. apply Hagain; discriminate.
Defined.

Lemma X8_Update_witness :
  let e := mkEnv 40 5%N NoFault in
  let t : table :=
    <[ 1%N := mkRow (runes "Book 1") (runes "Author 1") 2020 10 10 ]>
      (<[ 2%N := mkRow (runes "Book 2") (runes "Author 2") 2021 30 30 ]> ∅) in
  let t' := (postgres.Update e 1%N
               (mkBook 0%N (runes "Book 1b") (runes "Author 1") 2020 0 0) t).2 in
  t' !! 2%N = t !! 2%N /\ size t' = size t.
Proof.
  intros e t t'.
  destruct (X8_Update_changes_only_the_addressed_row e 1%N
              (mkBook 0%N (runes "Book 1b") (runes "Author 1") 2020 0 0) t)
    as (Hother & _ & Hsize & _).
  split; [apply Hother; discriminate|exact Hsize].
Defined.

(** ** Sequences of requests *)

Lemma run_op_step (e : StmtEnv) (op : Op) (t : table) :
  run_op e op t = t
  \/ (exists g r, t !! g = None /\ run_op e op t = <[g := r]> t
        /\ created_at r = now e /\ updated_at r = now e)
  \/ (exists id old r, t !! id = Some old /\ run_op e op t = <[id := r]> t
        /\ created_at r = created_at old /\ updated_at r = now e)
  \/ (exists id, run_op e op t = delete id t).
Proof.
  destruct op as [nu c|id| |id u|id]; unfold run_op.
  - destruct (CreateBookDTO.Validate c) eqn:Hv.
    + left. unfold usecases.CreateBook. now rewrite Hv.
    + rewrite CreateBook_valid by exact Hv.
      cbn [Create postgres.NewPostgresBookRepository].
      destruct (Create_state e (CreateBookDTO.ToBook nu c) t)
        as [->|(ti & au & y & _ & Hg & ->)]; [now left|].
      right; left. eexists _, _. repeat split; try reflexivity; exact Hg.
  - left. rewrite GetBookByID_pg. unfold postgres.GetByID.
    now destruct (sqlx.GetContext e (select_by_id id t)).
  - left. unfold usecases.GetAllBooks, bind, ret. simpl. unfold postgres.GetAll.
    now destruct (sqlx.SelectContext e (select_all_ordered t)).
  - destruct (UpdateBookDTO.Validate u) eqn:Hv.
    + left. unfold usecases.UpdateBook. now rewrite Hv.
    + rewrite UpdateBook_valid by exact Hv.
      cbn [Update postgres.NewPostgresBookRepository].
      destruct (Update_state e id (mkBook 0%N (UpdateBookDTO.Title u)
                  (UpdateBookDTO.Author u) (UpdateBookDTO.Year u) 0 0) t)
        as [->|(ti & au & y & old & _ & Hid & ->)]; [now left|].
      right; right; left. eexists id, old, _. repeat split; try reflexivity; exact Hid.
  - assert (Hd : usecases.DeleteBook (postgres.NewPostgresBookRepository e) id t
                 = postgres.Delete e id t).
    { unfold usecases.DeleteBook, bind, ret. simpl.
      now destruct (postgres.Delete e id t) as [[err|] t1]. }
    rewrite Hd. destruct (Delete_state e id t) as [->| ->]; [now left|].
    right; right; right. now exists id.
Qed.

(** X10. No request changes the created_at of a row: whatever the request and
    whatever the store does, a row that is in the table before and after has
    the same created_at. *)
Theorem X10_created_at_is_never_modified :
  forall (e : StmtEnv) (op : Op) (t : table) (k : UUID) (r r' : row),
    t !! k = Some r ->
    run_op e op t !! k = Some r' ->
    created_at r' = created_at r.
Proof.
  intros e op t k r r' Hk Hk'.
  destruct (run_op_step e op t)
    as [E|[(g & x & Hg & E & _)|[(id & old & x & Hid & E & Hc & _)|[id E]]]];
    rewrite E in Hk'.
  - congruence.
  - rewrite lookup_insert_ne in Hk' by congruence. congruence.
  - destruct (decide (id = k)) as [->|Hne].
    + rewrite lookup_insert_eq in Hk'. congruence.
    + rewrite lookup_insert_ne in Hk' by exact Hne. congruence.
  - apply lookup_delete_Some in Hk'. destruct Hk' as [_ Hk']. congruence.
Qed.

Lemma X10_created_at_witness :
  let e := mkEnv 40 5%N NoFault in
  let r := mkRow (runes "Book 1") (runes "Author 1") 2020 10 10 in
  let r' := mkRow (runes "Book 1b") (runes "Author 1") 2021 10 40 in
  let t : table := {[ 1%N := r ]} in
  let op := OpUpdate 1%N (UpdateBookDTO.mk (runes "Book 1b") (runes "Author 1") 2021) in
  t !! 1%N = Some r /\ run_op e op t !! 1%N = Some r'
  /\ created_at r' = created_at r.
Proof.
  intros e r r' t op.
  assert (H1 : t !! 1%N = Some r) by reflexivity.
  assert (H2 : run_op e op t !! 1%N = Some r') by reflexivity.
  split; [exact H1|]. split; [exact H2|].
  exact (X10_created_at_is_never_modified e op t 1%N r r' H1 H2).
Defined.

Lemma run_op_timestamps (e : StmtEnv) (op : Op) (t : table) (c : Time) :
  (forall k r, t !! k = Some r -> created_at r <= updated_at r <= c) ->
  c <= now e ->
  forall k r, run_op e op t !! k = Some r ->
              created_at r <= updated_at r <= now e.
Proof.
  intros Hinv Hc k r Hk.
  destruct (run_op_step e op t)
    as [E|[(g & x & Hg & E & Hx1 & Hx2)|[(id & old & x & Hid & E & Hx1 & Hx2)|[id E]]]];
    rewrite E in Hk.
  - specialize (Hinv k r Hk). lia.
  - destruct (decide (g = k)) as [->|Hne].
    + rewrite lookup_insert_eq in Hk. inversion Hk; subst. lia.
    + rewrite lookup_insert_ne in Hk by exact Hne.
      specialize (Hinv k r Hk). lia.
  - destruct (decide (id = k)) as [->|Hne].
    + rewrite lookup_insert_eq in Hk. inversion Hk; subst.
      specialize (Hinv k old Hid). lia.
    + rewrite lookup_insert_ne in Hk by exact Hne.
      specialize (Hinv k r Hk). lia.
  - apply lookup_delete_Some in Hk. destruct Hk as [_ Hk].
    specialize (Hinv k r Hk). lia.
Qed.

(** X11. As long as the store's clock never goes back, updated_at is never
    before created_at: if every row of the table satisfies
    created_at <= updated_at <= c and the successive statements read
    non-decreasing clock values from c on, then after any series of requests,
    with any failures, every row still has created_at <= updated_at. *)
Theorem X11_updated_at_not_before_created_at :
  forall (steps : list (StmtEnv * Op)) (c : Time) (t : table),
    (forall k r, t !! k = Some r -> created_at r <= updated_at r <= c) ->
    clock_monotone c steps ->
    forall k r, run_ops steps t !! k = Some r -> created_at r <= updated_at r.
Proof.
  induction steps as [|[e op] steps IH]; intros c t Hinv Hmono k r Hk;
    simpl in *.
  - specialize (Hinv k r Hk). lia.
  - destruct Hmono as [Hc Hmono].
    apply (IH (now e) (run_op e op t)
              (run_op_timestamps e op t c Hinv Hc) Hmono k r Hk).
Qed.

Lemma X11_updated_at_witness :
  let c := CreateBookDTO.mk (runes "Clean Code") (runes "Robert Martin") 2008 in
  let u := UpdateBookDTO.mk (runes "Clean Code (2nd ed)") (runes "Robert Martin") 2008 in
  let steps := [ (mkEnv 10 1%N NoFault, OpCreate 7%N c);
                 (mkEnv 10 2%N FailScan, OpUpdate 1%N u);
                 (mkEnv 15 3%N NoFault, OpUpdate 1%N u) ] in
  let r := mkRow (runes "Clean Code (2nd ed)") (runes "Robert Martin") 2008 10 15 in
  run_ops steps ∅ !! 1%N = Some r /\ created_at r <= updated_at r.
Proof.
  intros c u steps r.
  assert (Hk : run_ops steps ∅ !! 1%N = Some r) by (vm_compute; reflexivity).
  split; [exact Hk|].
  apply (X11_updated_at_not_before_created_at steps 0 ∅) with (k := 1%N).
  - intros k r0 Hk0. rewrite lookup_empty in Hk0. discriminate.
  - simpl. lia.
  - exact Hk.
Defined.

(** X12. Round trip: whenever UpdateBook succeeds, the book it returns is
    exactly what a following GetBookByID of that id returns (when that query
    goes through).  It does succeed for a valid request on a known id when
    nothing fails and the columns accept title and author. *)
Theorem X12_updated_book_can_be_read_back :
  forall (e e1 : StmtEnv) (id : UUID) (dto : UpdateBookDTO.t) (t : table),
    fault e1 = NoFault ->
    (forall b t',
        usecases.UpdateBook (postgres.NewPostgresBookRepository e) id dto t
        = (Ok b, t') ->
        usecases.GetBookByID (postgres.NewPostgresBookRepository e1) id t'
        = (Ok b, t'))
    /\ (UpdateBookDTO.Validate dto = None ->
        fault e = NoFault ->
        is_Some (t !! id) ->
        is_Some (varchar 255 (UpdateBookDTO.Title dto)) ->
        is_Some (varchar 255 (UpdateBookDTO.Author dto)) ->
        exists b t',
          usecases.UpdateBook (postgres.NewPostgresBookRepository e) id dto t
          = (Ok b, t')
          /\ usecases.GetBookByID (postgres.NewPostgresBookRepository e1) id t'
             = (Ok b, t')).
Proof.
  intros e e1 id dto t Hf1.
  assert (Hback : forall b t',
            usecases.UpdateBook (postgres.NewPostgresBookRepository e) id dto t
            = (Ok b, t') ->
            usecases.GetBookByID (postgres.NewPostgresBookRepository e1) id t'
            = (Ok b, t')).
  { intros b t' H.
    destruct (UpdateBook_pg_Ok_inv e id dto t t' b H)
      as (old & ti & au & _ & _ & _ & _ & _ & -> & ->).
    rewrite GetBookByID_pg.
    apply GetByID_present; [exact Hf1|apply lookup_insert_eq]. }
  split; [exact Hback|].
  intros Hv Hf [old Hid] [ti Hti] [au Hau].
  eexists _, _. split.
  - apply (UpdateBook_pg_success e id dto t old ti au Hv Hf Hid Hti Hau).
  - apply Hback.
    apply (UpdateBook_pg_success e id dto t old ti au Hv Hf Hid Hti Hau).
Qed.

Lemma X12_updated_book_witness :
  let e := mkEnv 40 5%N NoFault in
  let t : table := {[ 1%N := mkRow (runes "Book 1") (runes "Author 1") 2020 10 10 ]} in
  let dto := UpdateBookDTO.mk (runes "Book 1b") (runes "Author 1") 2021 in
  exists b t',
    usecases.UpdateBook (postgres.NewPostgresBookRepository e) 1%N dto t = (Ok b, t')
    /\ usecases.GetBookByID (postgres.NewPostgresBookRepository e) 1%N t' = (Ok b, t').
Proof.
  intros e t dto.
  apply (X12_updated_book_can_be_read_back e e 1%N dto t eq_refl);
    try reflexivity; eexists; reflexivity.
Defined.

Lemma CreateBook_pg_Ok (e : StmtEnv) (new_uuid : UUID) (dto : CreateBookDTO.t)
    (t : table) :
  fault e = NoFault ->
  is_Ok (usecases.CreateBook (postgres.NewPostgresBookRepository e)
           new_uuid dto t).1 ->
  exists r, t !! uuid_generate_v4 e = None
    /\ usecases.CreateBook (postgres.NewPostgresBookRepository e) new_uuid dto t
       = (Ok (to_Book (uuid_generate_v4 e) r), <[uuid_generate_v4 e := r]> t).
Proof.
  intros Hf Hok.
  destruct (usecases.CreateBook (postgres.NewPostgresBookRepository e)
              new_uuid dto t) as [[b|err] t'] eqn:E; [|destruct Hok].
  destruct (CreateBook_pg_Ok_inv e new_uuid dto t t' b E) as (_ & Hg & -> & Hb).
  destruct Hb as [[_ ->]|[Hf' _]]; [|congruence].
  eexists. split; [exact Hg|reflexivity].
Qed.

Lemma create_books_size (reqs : list (StmtEnv * UUID * CreateBookDTO.t)) (t : table) :
  Forall (fun q => fault q.1.1 = NoFault) reqs ->
  Forall is_Ok (create_books reqs t).1 ->
  size (create_books reqs t).2 = (size t + length reqs)%nat.
Proof.
  revert t. induction reqs as [|[[e nu] dto] reqs IH]; intros t Hf Hok; simpl.
  - lia.
  - simpl in Hok. inversion Hf as [|q qs Hq Hqs]; subst. simpl in Hq.
    destruct (usecases.CreateBook (postgres.NewPostgresBookRepository e) nu dto t)
      as [r t1] eqn:E1.
    destruct (create_books reqs t1) as [rs t2] eqn:E2.
    simpl in *. inversion Hok as [|x xs Hx Hxs]; subst.
    assert (Hr : is_Ok (usecases.CreateBook
                          (postgres.NewPostgresBookRepository e) nu dto t).1)
      by now rewrite E1.
    destruct (CreateBook_pg_Ok e nu dto t Hq Hr) as (row0 & Hg & Hc).
    rewrite E1 in Hc. inversion Hc; subst.
    specialize (IH (<[uuid_generate_v4 e := row0]> t) Hqs).
    rewrite E2 in IH. simpl in IH. rewrite IH by exact Hxs.
    rewrite map_size_insert_None by exact Hg. lia.
Qed.

(** X13. Creating N books, one after the other, all successfully, on an empty
    table makes the listing return exactly N entries. *)
Theorem X13_listing_after_N_creations_has_N_entries :
  forall (reqs : list (StmtEnv * UUID * CreateBookDTO.t)) (e : StmtEnv),
    Forall (fun q => fault q.1.1 = NoFault) reqs ->
    Forall is_Ok (create_books reqs ∅).1 ->
    fault e = NoFault ->
    exists books,
      usecases.GetAllBooks (postgres.NewPostgresBookRepository e)
        (create_books reqs ∅).2
      = (Ok books, (create_books reqs ∅).2)
      /\ length books = length reqs
      /\ length (create_books reqs ∅).1 = length reqs.
Proof.
  intros reqs e Hf Hok He.
  exists (select_all_ordered (create_books reqs ∅).2). split; [|split].
  - unfold usecases.GetAllBooks, bind, ret. simpl.
    unfold postgres.GetAll, sqlx.SelectContext. now rewrite He.
  - unfold select_all_ordered.
    rewrite (Permutation_length (merge_sort_Permutation _ _)).
    rewrite books_of_length, (create_books_size reqs ∅ Hf Hok).
    now rewrite map_size_empty.
  - clear. generalize (∅ : table). induction reqs as [|[[e nu] dto] reqs IH];
      intros t; simpl; [reflexivity|].
    destruct (usecases.CreateBook _ nu dto t) as [r t1].
    specialize (IH t1). destruct (create_books reqs t1) as [rs t2].
    simpl in *. now rewrite IH.
Qed.

Lemma X13_listing_witness :
  let c1 := CreateBookDTO.mk (runes "Book 1") (runes "Author 1") 2020 in
  let c2 := CreateBookDTO.mk (runes "Book 2") (runes "Author 2") 2021 in
  let reqs := [ (mkEnv 10 1%N NoFault, 7%N, c1);
                (mkEnv 11 2%N NoFault, 8%N, c2);
                (mkEnv 12 3%N NoFault, 9%N, c1) ] in
  exists books,
    usecases.GetAllBooks (postgres.NewPostgresBookRepository (mkEnv 20 4%N NoFault))
      (create_books reqs ∅).2
    = (Ok books, (create_books reqs ∅).2)
    /\ length books = 3%nat
    /\ length (create_books reqs ∅).1 = 3%nat.
Proof.
  intros c1 c2 reqs.
  apply (X13_listing_after_N_creations_has_N_entries reqs (mkEnv 20 4%N NoFault)).
  - repeat constructor.
  - vm_compute. repeat constructor.
  - reflexivity.
Defined.

Lemma books_of_ids (t : table) : ID <$> books_of t = (map_to_list t).*1.
Proof.
  unfold books_of. rewrite <- list_fmap_compose. apply list_fmap_ext.
  now intros i [k r] _.
Qed.

(** X14. A listing never shows two books with the same id. *)
Theorem X14_listing_has_no_duplicate_ids :
  forall (e : StmtEnv) (t : table) (books : list Book),
    (usecases.GetAllBooks (postgres.NewPostgresBookRepository e) t).1 = Ok books ->
    NoDup (ID <$> books).
Proof.
  intros e t books H.
  unfold usecases.GetAllBooks, bind, ret in H. simpl in H.
  unfold postgres.GetAll, sqlx.SelectContext in H.
  assert (Hb : books = select_all_ordered t)
    by (destruct (fault e); simpl in H; congruence).
  subst books. unfold select_all_ordered.
  rewrite (merge_sort_Permutation created_at_desc (books_of t)).
  rewrite books_of_ids. apply NoDup_fst_map_to_list.
Qed.

Lemma X14_listing_witness :
  let e := mkEnv 50 9%N NoFault in
  let t : table :=
    <[ 1%N := mkRow (runes "Book 1") (runes "Author 1") 2020 10 10 ]>
      (<[ 2%N := mkRow (runes "Book 2") (runes "Author 2") 2021 30 30 ]> ∅) in
  NoDup (ID <$> [ mkBook 2%N (runes "Book 2") (runes "Author 2") 2021 30 30;
                  mkBook 1%N (runes "Book 1") (runes "Author 1") 2020 10 10 ]).
Proof.
  intros e t.
  apply (X14_listing_has_no_duplicate_ids e t). vm_compute. reflexivity.
Defined.

(** X15. A successful CreateBook adds exactly one entry to the listing, the
    row it stored: afterwards GetAllBooks returns, up to order, that row
    together with the books listed before.  The added entry is the book
    CreateBook returned exactly when the result set was read without
    failure; otherwise the returned book is the zero value, which is not the
    added entry. *)
Theorem X15_creation_adds_one_entry_to_the_listing :
  forall (e e1 e2 : StmtEnv) (new_uuid : UUID) (dto : CreateBookDTO.t)
         (t t' : table) (b : Book),
    usecases.CreateBook (postgres.NewPostgresBookRepository e) new_uuid dto t
    = (Ok b, t') ->
    fault e1 = NoFault -> fault e2 = NoFault ->
    let stored := to_Book (uuid_generate_v4 e)
                    (mkRow (strings.TrimSpace (CreateBookDTO.Title dto))
                           (strings.TrimSpace (CreateBookDTO.Author dto))
                           (CreateBookDTO.Year dto) (now e) (now e)) in
    exists before after,
      usecases.GetAllBooks (postgres.NewPostgresBookRepository e1) t
      = (Ok before, t)
      /\ usecases.GetAllBooks (postgres.NewPostgresBookRepository e2) t'
         = (Ok after, t')
      /\ after ≡ₚ stored :: before
      /\ (fault e = NoFault -> b = stored /\ after ≡ₚ b :: before)
      /\ (fault e <> NoFault -> b = zero_Book /\ b <> stored).
Proof.
  intros e e1 e2 new_uuid dto t t' b H Hf1 Hf2 stored.
  destruct (CreateBook_pg_Ok_inv e new_uuid dto t t' b H) as (Hv & Hg & -> & Hb).
  assert (Hp : select_all_ordered
                 (<[uuid_generate_v4 e :=
                      mkRow (strings.TrimSpace (CreateBookDTO.Title dto))
                            (strings.TrimSpace (CreateBookDTO.Author dto))
                            (CreateBookDTO.Year dto) (now e) (now e)]> t)
               ≡ₚ stored :: select_all_ordered t).
  { unfold select_all_ordered. rewrite !merge_sort_Permutation.
    unfold books_of. rewrite map_to_list_insert by exact Hg.
    reflexivity. }
  eexists (select_all_ordered t), (select_all_ordered _).
  split; [|split; [|split; [exact Hp|split]]].
  - unfold usecases.GetAllBooks, bind, ret. simpl.
    unfold postgres.GetAll, sqlx.SelectContext. now rewrite Hf1.
  - unfold usecases.GetAllBooks, bind, ret. simpl.
    unfold postgres.GetAll, sqlx.SelectContext. now rewrite Hf2.
  - intros Hf. destruct Hb as [[_ ->]|[Hf' _]]; [|congruence].
    split; [reflexivity|exact Hp].
  - intros Hf. destruct Hb as [[Hf' _]|[_ ->]]; [congruence|].
    split; [reflexivity|]. intros Hz.
    destruct (Validate_None_fields dto Hv) as (Hti & _).
    apply Hti. apply (f_equal Title) in Hz.
    unfold stored, to_Book, zero_Book in Hz. cbn [Title title] in Hz.
    now rewrite <- Hz.
Qed.

Lemma X15_creation_witness :
  let e := mkEnv 12 4%N NoFault in
  let pg := postgres.NewPostgresBookRepository e in
  let dto := CreateBookDTO.mk (runes "Clean Code") (runes "Robert Martin") 2008 in
  let t : table := {[ 1%N := mkRow (runes "Book 1") (runes "Author 1") 2020 10 10 ]} in
  let b := mkBook 4%N (runes "Clean Code") (runes "Robert Martin") 2008 12 12 in
  let t' : table :=
    <[ 4%N := mkRow (runes "Clean Code") (runes "Robert Martin") 2008 12 12 ]> t in
  usecases.CreateBook pg 2%N dto t = (Ok b, t')
  /\ exists before after,
       usecases.GetAllBooks pg t = (Ok before, t)
       /\ usecases.GetAllBooks pg t' = (Ok after, t')
       /\ after ≡ₚ b :: before.
Proof.
  intros e pg dto t b t'.
  assert (H : usecases.CreateBook pg 2%N dto t = (Ok b, t'))
    by (vm_compute; reflexivity).
  split; [exact H|].
  destruct (X15_creation_adds_one_entry_to_the_listing e e e 2%N dto t t' b H
              eq_refl eq_refl) as (before & after & H1 & H2 & _ & Hb & _).
  exists before, after. split; [exact H1|]. split; [exact H2|].
  exact (proj2 (Hb eq_refl)).
Defined.

(** ** The handlers on the PostgreSQL repository *)

Lemma GetBook_pg (e : StmtEnv) (id : UUID) (t : table) :
  book_handler.GetBook (postgres.NewPostgresBookRepository e)
    (book_handler.ParsedUUID id) t
  = match fault e, t !! id with
    | NoFault, Some r =>
        (book_handler.mkReply 200 (book_handler.BookJSON (to_Book id r)), t)
    | _, _ =>
        (book_handler.reply_error 404 "Book not found" "book not found", t)
    end.
Proof.
  unfold book_handler.GetBook, bind, ret. rewrite GetBookByID_pg.
  unfold postgres.GetByID, sqlx.GetContext, select_by_id.
  destruct (fault e), (t !! id); reflexivity.
Qed.

(** X16. On the PostgreSQL repository GET /books/{id} is answered 200, 400 or
    404 and never 500: with a well-formed id the answer is 200 with the stored
    row when the row exists and the query goes through, and 404 in every other
    case, storage failures included.  The table is not modified. *)
Theorem X16_GetBook_never_answers_500 :
  forall (e : StmtEnv) (idParam : book_handler.Parsed) (t : table),
    let out := book_handler.GetBook (postgres.NewPostgresBookRepository e)
                 idParam t in
    out.2 = t
    /\ (book_handler.Code out.1 = 200 \/ book_handler.Code out.1 = 400
        \/ book_handler.Code out.1 = 404)
    /\ (forall id, idParam = book_handler.ParsedUUID id ->
        (book_handler.Code out.1 = 200
         <-> fault e = NoFault /\ is_Some (t !! id))
        /\ (book_handler.Code out.1 = 404
            <-> ~ (fault e = NoFault /\ is_Some (t !! id)))
        /\ (forall r, fault e = NoFault -> t !! id = Some r ->
            book_handler.Sent out.1 = book_handler.BookJSON (to_Book id r))).
Proof.
  intros e [msg|id] t out; subst out.
  - split; [reflexivity|]. split; [simpl; auto|]. intros id H. discriminate H.
  - rewrite GetBook_pg. split; [|split].
    + destruct (fault e), (t !! id); reflexivity.
    + destruct (fault e), (t !! id); simpl; auto.
    + intros id' H. inversion H; subst id'.
      destruct (fault e) eqn:Ef, (t !! id) as [r|] eqn:Et; simpl;
        (split; [|split]);
        try (split; intros; try (exfalso; lia);
             intuition (try congruence; try discriminate; eauto;
                        try (match goal with
                             | H : is_Some None |- _ => destruct H; discriminate
                             end)));
        try (intros; congruence).
      exfalso. eauto.
Qed.

Lemma X16_GetBook_witness :
  let e := mkEnv 9 5%N FailCall in
  let t : table := {[ 1%N := mkRow (runes "Book 1") (runes "Author 1") 2020 3 3 ]} in
  book_handler.Code
    (book_handler.GetBook (postgres.NewPostgresBookRepository e)
       (book_handler.ParsedUUID 1%N) t).1 = 404.
Proof.
  intros e t.
  destruct (X16_GetBook_never_answers_500 e (book_handler.ParsedUUID 1%N) t)
    as (_ & _ & H).
  destruct (H 1%N eq_refl) as (_ & H404 & _).
  apply H404. intros [Hf _]. discriminate Hf.
Defined.

Lemma is_validation_spec (err : error) :
  validation_error err -> err <> ErrBookNotFound /\ book_handler.is_validation err = true.
Proof. intros [->|[->| ->]]; split; (discriminate || reflexivity). Qed.

(** X17. PUT /books/{id} validates before it looks the id up: a request that
    fails validation is answered 400 "Validation failed" with the text of the
    validation error, for every well-formed id, known or not, and the
    repository is not called. *)
Theorem X17_UpdateBook_handler_rejects_invalid_request_first :
  forall (St : Type) (repo : BookRepository St) (s : St) (log : list RepoCall)
         (id : UUID) (dto : UpdateBookDTO.t),
    invalid_request (UpdateBookDTO.Title dto) (UpdateBookDTO.Author dto)
                    (UpdateBookDTO.Year dto) ->
    exists err,
      UpdateBookDTO.Validate dto = Some err
      /\ book_handler.UpdateBook (traced repo) (book_handler.ParsedUUID id)
           (handlers.Decoded dto) (s, log)
         = (book_handler.reply_error 400 "Validation failed" (entities.Error err),
            (s, log)).
Proof.
  intros St repo s log id dto H.
  destruct (invalid_request_validate_spec _ _ _ H) as (err & Hv & E).
  rewrite <- Update_Validate_spec in E. exists err. split; [exact E|].
  destruct (is_validation_spec err Hv) as [Hnf Hval].
  unfold book_handler.UpdateBook, usecases.UpdateBook, bind, ret.
  rewrite E. rewrite bool_decide_eq_false_2 by exact Hnf. now rewrite Hval.
Qed.

Lemma X17_UpdateBook_handler_witness :
  let e := mkEnv 7 1%N NoFault in
  let repo := postgres.NewPostgresBookRepository e in
  let dto := UpdateBookDTO.mk (runes "Clean Code") (runes "Robert Martin") 2035 in
  exists err,
    UpdateBookDTO.Validate dto = Some err
    /\ book_handler.UpdateBook (traced repo) (book_handler.ParsedUUID 3%N)
         (handlers.Decoded dto) (∅, [])
       = (book_handler.reply_error 400 "Validation failed" (entities.Error err),
          (∅, [])).
Proof.
  intros e repo dto.
  apply (X17_UpdateBook_handler_rejects_invalid_request_first table repo ∅ [] 3%N dto).
  right. right. right. simpl. lia.
Defined.

(** X18. On the PostgreSQL repository DELETE /books/{id} with a well-formed id
    is answered 200 exactly when the row existed and the statement and its
    result went through, 404 exactly when they went through and the row did
    not exist, and 500 exactly when the driver call or the reading of its
    result failed. *)
Theorem X18_DeleteBook_handler_statuses :
  forall (e : StmtEnv) (id : UUID) (t : table),
    let out := book_handler.DeleteBook (postgres.NewPostgresBookRepository e)
                 (book_handler.ParsedUUID id) t in
    let went_through := fault e <> FailCall /\ fault e <> FailResult in
    (book_handler.Code out.1 = 200 <-> went_through /\ is_Some (t !! id))
    /\ (book_handler.Code out.1 = 404 <-> went_through /\ t !! id = None)
    /\ (book_handler.Code out.1 = 500 <-> ~ went_through)
    /\ (book_handler.Code out.1 = 200 ->
        out = (book_handler.mkReply 200
                 (book_handler.SuccessJSON
                    (book_handler.mkSuccessResponse "Book deleted successfully")),
               delete id t)).
Proof.
  intros e id t out went_through. subst out went_through.
  unfold book_handler.DeleteBook, usecases.DeleteBook, bind, ret. simpl.
  rewrite Delete_outcome.
  destruct (fault e) eqn:Ef, (t !! id) as [r|] eqn:Et; simpl;
    repeat split; intros;
    try (exfalso; lia); try discriminate; try congruence; eauto;
    try tauto;
    try (match goal with
         | H : _ /\ is_Some None |- _ => destruct H as [_ [? H]]; discriminate
         | H : _ /\ Some _ = None |- _ => destruct H as [_ H]; discriminate
         | H : (_ <> _ /\ _ <> _) /\ _ |- _ => destruct H as [[? ?] _]; congruence
         | H : ~ (_ /\ _) |- _ => exfalso; apply H; split; discriminate
         end).
Qed.


Lemma X18_DeleteBook_handler_witness :
  let e := mkEnv 9 5%N NoFault in
  let t : table := {[ 1%N := mkRow (runes "Book 1") (runes "Author 1") 2020 3 3 ]} in
  book_handler.DeleteBook (postgres.NewPostgresBookRepository e)
    (book_handler.ParsedUUID 1%N) t
  = (book_handler.mkReply 200
       (book_handler.SuccessJSON
          (book_handler.mkSuccessResponse "Book deleted successfully")),
     delete 1%N t).
Proof.
  intros e t.
  destruct (X18_DeleteBook_handler_statuses e 1%N t) as (_ & _ & _ & H).
  apply H. vm_compute. reflexivity.
Defined.


(** X19. The life of a book over HTTP, on the PostgreSQL repository with no
    storage failure, for titles and authors that fit their columns (at most
    255 characters, no U+0000): POST /books with a valid body is answered 201
    with the stored book; GET of its id then gives 200 with the same book;
    PUT of a valid body gives 200 with the same id and created_at and the new
    title, author and year; DELETE gives 200; and a last GET gives 404.  The
    table ends as it started. *)
Theorem X19_create_get_update_delete_get :
  forall (e1 e2 e3 e4 e5 : StmtEnv) (new_uuid : UUID)
         (c : CreateBookDTO.t) (u : UpdateBookDTO.t) (t : table),
    fault e1 = NoFault -> fault e2 = NoFault -> fault e3 = NoFault ->
    fault e4 = NoFault -> fault e5 = NoFault ->
    CreateBookDTO.Validate c = None ->
    UpdateBookDTO.Validate u = None ->
    fits_column (CreateBookDTO.Title c) -> fits_column (CreateBookDTO.Author c) ->
    fits_column (UpdateBookDTO.Title u) -> fits_column (UpdateBookDTO.Author u) ->
    t !! uuid_generate_v4 e1 = None ->
    exists b b' t1 t2,
      handlers.CreateBook (postgres.NewPostgresBookRepository e1) new_uuid
        (handlers.Decoded c) t
      = (handlers.JSON 201 (handlers.JSONBook b), t1)
      /\ book_handler.GetBook (postgres.NewPostgresBookRepository e2)
           (book_handler.ParsedUUID (ID b)) t1
         = (book_handler.mkReply 200 (book_handler.BookJSON b), t1)
      /\ book_handler.UpdateBook (postgres.NewPostgresBookRepository e3)
           (book_handler.ParsedUUID (ID b)) (handlers.Decoded u) t1
         = (book_handler.mkReply 200 (book_handler.BookJSON b'), t2)
      /\ ID b' = ID b /\ CreatedAt b' = CreatedAt b
      /\ Title b' = UpdateBookDTO.Title u /\ Author b' = UpdateBookDTO.Author u
      /\ Year b' = UpdateBookDTO.Year u
      /\ book_handler.DeleteBook (postgres.NewPostgresBookRepository e4)
           (book_handler.ParsedUUID (ID b)) t2
         = (book_handler.mkReply 200
              (book_handler.SuccessJSON
                 (book_handler.mkSuccessResponse "Book deleted successfully")),
            t)
      /\ book_handler.GetBook (postgres.NewPostgresBookRepository e5)
           (book_handler.ParsedUUID (ID b)) t
         = (book_handler.reply_error 404 "Book not found" "book not found", t).
Proof.
  intros e1 e2 e3 e4 e5 new_uuid c u t Hf1 Hf2 Hf3 Hf4 Hf5 Hc Hu
         Hct Hca Hut Hua Hg.
  set (g := uuid_generate_v4 e1) in *.
  set (r := mkRow (strings.TrimSpace (CreateBookDTO.Title c))
                  (strings.TrimSpace (CreateBookDTO.Author c))
                  (CreateBookDTO.Year c) (now e1) (now e1)).
  set (r' := mkRow (UpdateBookDTO.Title u) (UpdateBookDTO.Author u)
                   (UpdateBookDTO.Year u) (created_at r) (now e3)).
  exists (to_Book g r), (to_Book g r'), (<[g := r]> t), (<[g := r']> (<[g := r]> t)).
  split; [|split; [|split; [|repeat split]]].
  - unfold handlers.CreateBook, bind, ret.
    now rewrite (CreateBook_pg_success e1 new_uuid c t Hc Hf1 Hg Hct Hca).
  - change (ID (to_Book g r)) with g. rewrite GetBook_pg, Hf2, lookup_insert_eq.
    reflexivity.
  - change (ID (to_Book g r)) with g. unfold book_handler.UpdateBook, bind, ret.
    now rewrite (UpdateBook_pg_success e3 g u (<[g := r]> t) r _ _ Hu Hf3
                   (lookup_insert_eq _ _ _)
                   (fits_column_varchar _ Hut) (fits_column_varchar _ Hua)).
  - change (ID (to_Book g r)) with g.
    unfold book_handler.DeleteBook, usecases.DeleteBook, bind, ret.
    cbn [Delete postgres.NewPostgresBookRepository].
    rewrite Delete_outcome, Hf4, lookup_insert_eq.
    rewrite insert_insert_eq, delete_insert_id by exact Hg. reflexivity.
  - change (ID (to_Book g r)) with g. rewrite GetBook_pg, Hg.
    now destruct (fault e5).
Qed.

Lemma X19_scenario_witness :
  let e := mkEnv 12 4%N NoFault in
  let e' := mkEnv 15 5%N NoFault in
  let c := CreateBookDTO.mk (runes "Clean Code") (runes "Robert Martin") 2008 in
  let u := UpdateBookDTO.mk (runes "Clean Code (2nd ed)") (runes "Robert Martin") 2008 in
  exists b b' t1 t2,
    handlers.CreateBook (postgres.NewPostgresBookRepository e) 7%N
      (handlers.Decoded c) ∅
    = (handlers.JSON 201 (handlers.JSONBook b), t1)
    /\ book_handler.GetBook (postgres.NewPostgresBookRepository e')
         (book_handler.ParsedUUID (ID b)) t1
       = (book_handler.mkReply 200 (book_handler.BookJSON b), t1)
    /\ book_handler.UpdateBook (postgres.NewPostgresBookRepository e')
         (book_handler.ParsedUUID (ID b)) (handlers.Decoded u) t1
       = (book_handler.mkReply 200 (book_handler.BookJSON b'), t2)
    /\ ID b' = ID b /\ CreatedAt b' = CreatedAt b
    /\ Title b' = UpdateBookDTO.Title u /\ Author b' = UpdateBookDTO.Author u
    /\ Year b' = UpdateBookDTO.Year u
    /\ book_handler.DeleteBook (postgres.NewPostgresBookRepository e')
         (book_handler.ParsedUUID (ID b)) t2
       = (book_handler.mkReply 200
            (book_handler.SuccessJSON
               (book_handler.mkSuccessResponse "Book deleted successfully")),
          ∅)
    /\ book_handler.GetBook (postgres.NewPostgresBookRepository e')
         (book_handler.ParsedUUID (ID b)) ∅
       = (book_handler.reply_error 404 "Book not found" "book not found", ∅).
Proof.
  intros e e' c u.
  assert (Hfit : forall s, existsb (Z.eqb 0) s = false ->
                           (length s <=? 255)%nat = true -> fits_column s).
  { intros s0 H0 Hl. split; [exact H0|now apply Nat.leb_le]. }
  exact (X19_create_get_update_delete_get e e' e' e' e' 7%N c u ∅
           eq_refl eq_refl eq_refl eq_refl eq_refl eq_refl eq_refl
           (Hfit (CreateBookDTO.Title c) eq_refl eq_refl)
           (Hfit (CreateBookDTO.Author c) eq_refl eq_refl)
           (Hfit (UpdateBookDTO.Title u) eq_refl eq_refl)
           (Hfit (UpdateBookDTO.Author u) eq_refl eq_refl) eq_refl).
Defined.

(** ** Middleware *)

(** X21. [Recover] never lets a panic of the wrapped handler escape and does
    not panic itself: the panic becomes a nil error and, unless the response
    is already committed, a 500 response of kind HTTP_ERROR with the message
    "Internal server error occurred", the request id and code 500.  When the
    wrapped handler returns, its error is passed on and nothing is sent. *)
Theorem X21_Recover_turns_panic_into_500 :
  forall (next : middleware.Outcome) (requestID : string) (committed : bool),
    (middleware.Recover next requestID committed).2 <> middleware.Panic
    /\ middleware.Recover middleware.Panics requestID committed
       = (None,
          if committed then middleware.Nothing
          else middleware.SendJSON 500
                 (middleware.mkErrorResponse "HTTP_ERROR"
                    "Internal server error occurred" requestID 500))
    /\ (forall err,
          middleware.Recover (middleware.Returns err) requestID committed
          = (err, middleware.Nothing)).
Proof.
  intros next requestID committed. split; [|split].
  - destruct next, committed; discriminate.
  - destruct committed; reflexivity.
  - reflexivity.
Qed.

(** X22. [CustomHTTPErrorHandler] panics exactly on an [echo.HTTPError] whose
    message is not a string (also when the response is already committed), or,
    on a response that is not committed, on an [echo.HTTPError] whose code is
    neither 0 nor within 100..999.  When it sends a response with a JSON
    body, the response was not committed, the body carries the request id,
    and the body's code equals the HTTP status, except for an
    [echo.HTTPError] of code 0, which is sent with status 200 and a body of
    code 0.  The errors of the entities are always answered so, when the
    response is not committed, with body code and status 400, 404 or 500.
    Only an [echo.HTTPError] is answered otherwise: without body for the
    codes 101, 204 and 304, and with status 200 after an informational
    response for the other codes 1xx. *)
Theorem X22_CustomHTTPErrorHandler_outcomes :
  forall (err : middleware.goerror) (requestID : string) (committed : bool),
    let out := middleware.CustomHTTPErrorHandler err requestID committed in
    (out = middleware.Panic
     <-> (exists code, err = middleware.HTTPError code None)
         \/ (committed = false
             /\ exists code m, err = middleware.HTTPError code (Some m)
                /\ code <> 0 /\ (code < 100 \/ 999 < code)))
    /\ (forall status body,
          out = middleware.SendJSON status body ->
          committed = false
          /\ middleware.RequestID body = requestID
          /\ (middleware.Code body = status
              \/ (status = 200 /\ middleware.Code body = 0
                  /\ exists m, err = middleware.HTTPError 0 (Some m))))
    /\ (forall e, err = middleware.EntityError e -> committed = false ->
        exists status body,
          out = middleware.SendJSON status body
          /\ middleware.Code body = status
          /\ (status = 400 \/ status = 404 \/ status = 500))
    /\ (forall m,
          middleware.CustomHTTPErrorHandler (middleware.HTTPError 0 (Some m))
            requestID false
          = middleware.SendJSON 200
              (middleware.mkErrorResponse "HTTP_ERROR" m requestID 0))
    /\ (forall status,
          out = middleware.SendHeader status ->
          committed = false
          /\ (status = 101 \/ status = 204 \/ status = 304)
          /\ exists m, err = middleware.HTTPError status (Some m))
    /\ (forall status body,
          out = middleware.SendInterim status body ->
          committed = false
          /\ 100 <= status <= 199 /\ status <> 101
          /\ middleware.Code body = status
          /\ middleware.RequestID body = requestID
          /\ exists m, err = middleware.HTTPError status (Some m)).
Proof.
  intros err requestID committed out. subst out.
  unfold middleware.CustomHTTPErrorHandler.
  assert (HJ : forall code body,
             (middleware.JSON code body = middleware.Panic
              <-> code <> 0 /\ (code < 100 \/ 999 < code))
             /\ (forall status body',
                   middleware.JSON code body = middleware.SendJSON status body' ->
                   body' = body
                   /\ (status = code /\ 200 <= code <= 999
                       \/ status = 200 /\ code = 0))
             /\ (forall status,
                   middleware.JSON code body = middleware.SendHeader status ->
                   status = code /\ (code = 101 \/ code = 204 \/ code = 304))
             /\ (forall status body',
                   middleware.JSON code body = middleware.SendInterim status body' ->
                   body' = body /\ status = code
                   /\ 100 <= code <= 199 /\ code <> 101)).
  { intros code body. unfold middleware.JSON.
    destruct (code =? 0) eqn:E0.
    { split; [split; [discriminate|lia]|]. split; [|split; discriminate].
      intros status body' H. inversion H; subst. split; [reflexivity|].
      right. lia. }
    destruct ((code <? 100) || (999 <? code)) eqn:Er.
    { split; [split; [lia|reflexivity]|]. split; [|split]; discriminate. }
    destruct ((code =? 101) || (code =? 204) || (code =? 304)) eqn:Eh.
    { split; [split; [discriminate|lia]|]. split; [discriminate|].
      split; [|discriminate].
      intros status H. inversion H; subst. split; [reflexivity|lia]. }
    destruct (code <=? 199) eqn:Ei.
    { split; [split; [discriminate|lia]|]. split; [discriminate|].
      split; [discriminate|].
      intros status body' H. inversion H; subst. repeat split; lia. }
    split; [split; [discriminate|lia]|]. split; [|split; discriminate].
    intros status body' H. inversion H; subst. split; [reflexivity|].
    left. lia. }
  destruct err as [e|code [m|]|].
  - (* an error of the entities *)
    assert (He : exists code ty msg,
               middleware.classify (middleware.EntityError e)
               = Some (code, ty, msg)
               /\ (code = 400 \/ code = 404 \/ code = 500)).
    { destruct e; simpl; eauto 10. }
    destruct He as (code & ty & msg & Hcl & Hcode). rewrite Hcl.
    destruct committed.
    + split; [split; [discriminate|intros [[c H]|[H _]]; discriminate]|].
      split; [discriminate|]. split; [discriminate|].
      split; [reflexivity|]. split; discriminate.
    + assert (Hs : middleware.JSON code
                     (middleware.mkErrorResponse ty msg requestID code)
                   = middleware.SendJSON code
                       (middleware.mkErrorResponse ty msg requestID code)).
      { destruct Hcode as [->|[->| ->]]; reflexivity. }
      rewrite Hs.
      split; [split; [discriminate|intros [[c H]|[_ (c & m & H & _)]];
                                   discriminate]|].
      split; [intros status body H; inversion H; subst; simpl; auto|].
      split; [intros e' _ _; eauto|].
      split; [reflexivity|]. split; discriminate.
  - (* an HTTP error with a string message *)
    cbn [middleware.classify]. destruct committed.
    + split; [split; [discriminate|intros [[c H]|[H _]]; discriminate]|].
      split; [discriminate|]. split; [discriminate|].
      split; [reflexivity|]. split; discriminate.
    + destruct (HJ code (middleware.mkErrorResponse "HTTP_ERROR" m requestID code))
        as (HP & HS & HH & HI).
      split.
      { rewrite HP. split.
        - intros [H1 H2]. right. split; [reflexivity|]. eauto.
        - intros [[c H]|[_ (c & m' & H & H1 & H2)]]; [discriminate|].
          inversion H; subst. auto. }
      split.
      { intros status body H. destruct (HS _ _ H) as [-> Hst].
        split; [reflexivity|]. split; [reflexivity|]. simpl.
        destruct Hst as [[-> _]|[-> ->]]; [now left|].
        right. eauto. }
      split; [discriminate|]. split; [reflexivity|]. split.
      { intros status H. destruct (HH _ H) as [-> Hc]. eauto. }
      intros status body H. destruct (HI _ _ H) as (-> & -> & Hr & Hn).
      simpl. eauto 10.
  - (* an HTTP error whose message is not a string *)
    cbn [middleware.classify].
    split; [split; [eauto|reflexivity]|].
    split; [discriminate|]. split; [discriminate|].
    split; [reflexivity|]. split; discriminate.
  - (* any other error *)
    destruct committed; simpl.
    + split; [split; [discriminate|intros [[c H]|[H _]]; discriminate]|].
      split; [discriminate|]. split; [discriminate|].
      split; [reflexivity|]. split; discriminate.
    + split; [split; [discriminate|intros [[c H]|[_ (c & m & H & _)]];
                                   discriminate]|].
      split; [intros status body H; inversion H; subst; simpl; auto|].
      split; [discriminate|].
      split; [reflexivity|]. split; discriminate.
Qed.

Lemma X22_CustomHTTPErrorHandler_witness :
  exists status body,
    middleware.CustomHTTPErrorHandler
      (middleware.EntityError ErrInvalidTitle) "req-1" false
    = middleware.SendJSON status body
    /\ middleware.Code body = status
    /\ (status = 400 \/ status = 404 \/ status = 500).
Proof.
  exact (proj1 (proj2 (proj2 (X22_CustomHTTPErrorHandler_outcomes
           (middleware.EntityError ErrInvalidTitle) "req-1" false)))
           ErrInvalidTitle eq_refl eq_refl).
Defined.

Lemma validKey_elem_of (apiKey : string) (keys : list string) :
  middleware.validKey apiKey keys = true <-> apiKey ∈ keys.
Proof.
  induction keys as [|k keys IH]; simpl.
  - split; [discriminate|]. intros H. inversion H.
  - destruct (String.eqb apiKey k) eqn:E.
    + apply String.eqb_eq in E. subst. split; [intros _; left|reflexivity].
    + apply String.eqb_neq in E. rewrite IH. split.
      * intros H. now right.
      * intros H. inversion H; subst; [congruence|assumption].
Qed.

(** X23. [APIKeyAuth] lets a request through exactly when the check is
    disabled, or the path is /health or /metrics, or the configured header
    carries a non-empty key that is one of the allowed keys.  Every refusal is
    a 401; a request without key (empty header) on a protected path is refused
    with "API key required" even when the empty string is among the allowed
    keys. *)
Theorem X23_APIKeyAuth_decision :
  forall (config : middleware.SecurityConfig) (req : middleware.Request),
    let apiKey := middleware.HeaderGet req (middleware.APIKeyHeader config) in
    (middleware.APIKeyAuth config req = None
     <-> middleware.EnableAPIKey config = false
         \/ middleware.Path req = "/health"%string
         \/ middleware.Path req = "/metrics"%string
         \/ (apiKey <> ""%string /\ apiKey ∈ middleware.AllowedAPIKeys config))
    /\ (forall code msg,
          middleware.APIKeyAuth config req = Some (code, msg) -> code = 401)
    /\ (middleware.EnableAPIKey config = true ->
        middleware.Path req <> "/health"%string ->
        middleware.Path req <> "/metrics"%string ->
        apiKey = ""%string ->
        middleware.APIKeyAuth config req = Some (401, "API key required"%string)).
Proof.
  intros config req apiKey. subst apiKey. unfold middleware.APIKeyAuth.
  destruct (middleware.EnableAPIKey config) eqn:En; simpl.
  2: { repeat split; intros; try discriminate; auto. }
  destruct (String.eqb (middleware.Path req) "/health") eqn:Eh; simpl.
  { apply String.eqb_eq in Eh.
    repeat split; intros; try discriminate; try congruence; auto. }
  destruct (String.eqb (middleware.Path req) "/metrics") eqn:Em; simpl.
  { apply String.eqb_eq in Em.
    repeat split; intros; try discriminate; try congruence; auto. }
  apply String.eqb_neq in Eh, Em.
  destruct (String.eqb (middleware.HeaderGet req (middleware.APIKeyHeader config)) "")
    eqn:Ek.
  { apply String.eqb_eq in Ek. split; [|split].
    - split; [discriminate|]. intros [H|[H|[H|[H _]]]]; congruence.
    - intros code msg H. now inversion H.
    - reflexivity. }
  apply String.eqb_neq in Ek.
  destruct (middleware.validKey _ _) eqn:Ev; simpl.
  - apply validKey_elem_of in Ev. split; [|split].
    + split; [intros _; right; right; right; now split|reflexivity].
    + intros code msg H. discriminate H.
    + intros _ _ _ H. congruence.
  - split; [|split].
    + split; [discriminate|]. intros [H|[H|[H|[_ H]]]]; try congruence.
      apply validKey_elem_of in H. congruence.
    + intros code msg H. now inversion H.
    + intros _ _ _ H. congruence.
Qed.

Lemma X23_APIKeyAuth_witness :
  let config := middleware.mkSecurityConfig "X-API-Key" [""%string; "secret"%string] true in
  let req := middleware.mkRequest "/books" (fun _ => ""%string) in
  middleware.APIKeyAuth config req = Some (401, "API key required"%string).
Proof.
  intros config req.
  apply (X23_APIKeyAuth_decision config req); try reflexivity; discriminate.
Defined.


(** X24. POST /books on the PostgreSQL repository is answered 201, 400 or 500,
    never 404.  It is answered 400 exactly when the body cannot be decoded or
    fails validation, and then the table is untouched; with a valid body it is
    answered 500 exactly when [Create] reports DatabaseError. *)
Theorem X24_CreateBook_handler_statuses :
  forall (e : StmtEnv) (new_uuid : UUID) (body : handlers.Bound CreateBookDTO.t)
         (t : table),
    let pg := postgres.NewPostgresBookRepository e in
    let out := handlers.CreateBook pg new_uuid body t in
    (handlers.Status out.1 = 201 \/ handlers.Status out.1 = 400
     \/ handlers.Status out.1 = 500)
    /\ (handlers.Status out.1 = 400
        <-> (exists msg, body = handlers.BindError msg)
            \/ (exists dto err, body = handlers.Decoded dto
                               /\ CreateBookDTO.Validate dto = Some err))
    /\ (handlers.Status out.1 = 400 -> out.2 = t)
    /\ (forall dto, body = handlers.Decoded dto ->
        CreateBookDTO.Validate dto = None ->
        (handlers.Status out.1 = 500
         <-> (postgres.Create e (CreateBookDTO.ToBook new_uuid dto) t).1
             = Err ErrDatabaseError)).
Proof.
  intros e new_uuid [msg|dto] t pg out; subst out pg.
  - simpl. repeat split; auto; intros; try discriminate; eauto.
  - unfold handlers.CreateBook, bind, ret.
    destruct (CreateBookDTO.Validate dto) as [err|] eqn:Hv.
    + assert (Hb : bool_decide (err = ErrInvalidTitle)
                   || bool_decide (err = ErrInvalidAuthor)
                   || bool_decide (err = ErrInvalidYear) = true).
      { revert Hv. unfold CreateBookDTO.Validate.
        repeat (destruct (_ : bool); [intros Hv; inversion Hv; reflexivity|]).
        discriminate. }
      unfold usecases.CreateBook. rewrite Hv. simpl. rewrite Hb. simpl.
      split; [auto|]. split; [|split].
      * split; [intros _; right; eauto|reflexivity].
      * reflexivity.
      * intros d Hd Hv'. inversion Hd; subst. congruence.
    + rewrite CreateBook_valid by exact Hv.
      cbn [Create postgres.NewPostgresBookRepository].
      pose proof (Create_only_DatabaseError e
                    (CreateBookDTO.ToBook new_uuid dto) t) as Honly.
      destruct (postgres.Create e (CreateBookDTO.ToBook new_uuid dto) t)
        as [[b|err] t'] eqn:Ec; simpl in *.
      * split; [auto|]. split; [|split].
        -- split; [discriminate|].
           intros [[msg H]|(d & err & H & Hv')]; [discriminate|].
           inversion H; subst. congruence.
        -- discriminate.
        -- intros d Hd _. inversion Hd; subst.
           split; [discriminate|]. rewrite Ec. discriminate.
      * rewrite (Honly err eq_refl). simpl.
        split; [auto|]. split; [|split].
        -- split; [discriminate|].
           intros [[msg H]|(d & err' & H & Hv')]; [discriminate|].
           inversion H; subst. congruence.
        -- discriminate.
        -- intros d Hd _. inversion Hd; subst.
           split; [intros _|reflexivity]. rewrite Ec. simpl.
           now rewrite (Honly err eq_refl).
Qed.

Lemma X24_CreateBook_handler_witness :
  let e := mkEnv 12 1%N NoFault in
  let t : table := {[ 1%N := mkRow (runes "Design Patterns") (runes "Gang of Four")
                                   1994 3 3 ]} in
  let dto := CreateBookDTO.mk (runes "Clean Code") (runes "Robert Martin") 2008 in
  handlers.Status
    (handlers.CreateBook (postgres.NewPostgresBookRepository e) 7%N
       (handlers.Decoded dto) t).1 = 500.
Proof.
  intros e t dto.
  destruct (X24_CreateBook_handler_statuses e 7%N (handlers.Decoded dto) t)
    as (_ & _ & _ & H).
  apply (H dto eq_refl eq_refl). vm_compute. reflexivity.
Defined.

Lemma Update_outcome (e : StmtEnv) (id : UUID) (b : Book) (t : table) :
  postgres.Update e id b t
  = match columns b with
    | None => (Err ErrDatabaseError, t)
    | Some (ti, au, y) =>
        match t !! id with
        | None =>
            match fault e with
            | FailCall => (Err ErrDatabaseError, t)
            | _ => (Err ErrBookNotFound, t)
            end
        | Some old =>
            let r := mkRow ti au y (created_at old) (now e) in
            match fault e with
            | NoFault => (Ok (to_Book id r), <[id := r]> t)
            | FailCall =>
                (Err ErrDatabaseError, if applied e then <[id := r]> t else t)
            | FailResult => (Err ErrBookNotFound, <[id := r]> t)
            | FailScan => (Err ErrDatabaseError, <[id := r]> t)
            end
        end
    end.
Proof.
  unfold postgres.Update, sqlx.NamedQueryContext, update_returning.
  change (columns (mkBook id (Title b) (Author b) (Year b) (CreatedAt b)
                          (UpdatedAt b))) with (columns b).
  simpl.
  destruct (columns b) as [[[ti au] y]|];
    [|now destruct (fault e), (applied e)].
  destruct (t !! id) as [old|]; now destruct (fault e), (applied e).
Qed.

Lemma columns_update_cases (dto : UpdateBookDTO.t) :
  UpdateBookDTO.Validate dto = None ->
  columns (mkBook 0%N (UpdateBookDTO.Title dto) (UpdateBookDTO.Author dto)
                  (UpdateBookDTO.Year dto) 0 0)
  = match varchar 255 (UpdateBookDTO.Title dto),
          varchar 255 (UpdateBookDTO.Author dto) with
    | Some ti, Some au => Some (ti, au, UpdateBookDTO.Year dto)
    | _, _ => None
    end.
Proof.
  intros Hv.
  destruct (varchar 255 (UpdateBookDTO.Title dto)) as [ti|] eqn:Hti;
    [|unfold columns; cbn [Title]; now rewrite Hti].
  destruct (varchar 255 (UpdateBookDTO.Author dto)) as [au|] eqn:Hau;
    [now apply columns_update|].
  unfold columns. cbn [Title Author]. now rewrite Hti, Hau.
Qed.

(** X25. PUT /books/{id} with a well-formed id and a valid body, on the
    PostgreSQL repository, is answered 200, 404 or 500.  It is answered 200
    exactly when the columns accept title and author, the row exists and
    nothing fails.  It is answered 404 exactly when the columns accept title
    and author, the driver call goes through, and either the id is unknown or
    the result set delivers no row; with an unknown id the table is left as
    it was.  Every other case is a 500 "Failed to update book"; a 500 does not
    tell that nothing was written: when the driver call fails after the
    statement was carried out, the row is updated. *)
Theorem X25_UpdateBook_handler_statuses :
  forall (e : StmtEnv) (id : UUID) (dto : UpdateBookDTO.t) (t : table),
    UpdateBookDTO.Validate dto = None ->
    let out := book_handler.UpdateBook (postgres.NewPostgresBookRepository e)
                 (book_handler.ParsedUUID id) (handlers.Decoded dto) t in
    let accepted := is_Some (varchar 255 (UpdateBookDTO.Title dto))
                    /\ is_Some (varchar 255 (UpdateBookDTO.Author dto)) in
    (book_handler.Code out.1 = 200 \/ book_handler.Code out.1 = 404
     \/ book_handler.Code out.1 = 500)
    /\ (book_handler.Code out.1 = 200
        <-> accepted /\ fault e = NoFault /\ is_Some (t !! id))
    /\ (book_handler.Code out.1 = 404
        <-> accepted /\ fault e <> FailCall
            /\ (t !! id = None \/ fault e = FailResult))
    /\ (accepted -> t !! id = None -> fault e <> FailCall ->
        out = (book_handler.reply_error 404 "Book not found" "book not found", t))
    /\ (book_handler.Code out.1 = 500 ->
        out.1 = book_handler.reply_error 500 "Failed to update book"
                  "database operation failed")
    /\ (forall old ti au,
          varchar 255 (UpdateBookDTO.Title dto) = Some ti ->
          varchar 255 (UpdateBookDTO.Author dto) = Some au ->
          t !! id = Some old ->
          fault e = FailCall -> applied e = true ->
          out = (book_handler.reply_error 500 "Failed to update book"
                   "database operation failed",
                 <[id := mkRow ti au (UpdateBookDTO.Year dto) (created_at old)
                           (now e)]> t)).
Proof.
  intros e id dto t Hv out accepted. subst out accepted.
  unfold book_handler.UpdateBook, bind, ret.
  rewrite UpdateBook_valid by exact Hv.
  cbn [Update postgres.NewPostgresBookRepository].
  rewrite Update_outcome, (columns_update_cases dto Hv).
  destruct (varchar 255 (UpdateBookDTO.Title dto)) as [ti|] eqn:Hti;
  destruct (varchar 255 (UpdateBookDTO.Author dto)) as [au|] eqn:Hau.
  all: destruct (fault e) eqn:Ef, (t !! id) as [old|] eqn:Et; simpl.
  all: split_and!.
  all: try (split; [intros H|intros ([H1 H2] & H3 & H4)]).
  all: intros; try discriminate; try congruence; eauto.
  all: repeat match goal with
       | H : is_Some None |- _ => destruct H; discriminate
       | H : _ \/ _ |- _ => destruct H
       end; try congruence; try discriminate.
  all: try (split_and!; eauto; congruence).
  all: try (exfalso; lia).
  all: repeat match goal with
       | H : _ /\ _ |- _ => destruct H
       | H : is_Some None |- _ => destruct H; discriminate
       end.
  all: simplify_eq.
  all: try match goal with H : applied _ = true |- _ => rewrite H end.
  all: reflexivity.
Qed.

Lemma X25_UpdateBook_handler_witness :
  let e := mkStmtEnv 12 1%N FailCall true in
  let e' := mkEnv 12 1%N NoFault in
  let old := mkRow (runes "Design Patterns") (runes "Gang of Four") 1994 3 3 in
  let t : table := {[ 1%N := old ]} in
  let dto := UpdateBookDTO.mk (runes "Clean Code") (runes "Robert Martin") 2008 in
  book_handler.UpdateBook (postgres.NewPostgresBookRepository e)
    (book_handler.ParsedUUID 1%N) (handlers.Decoded dto) t
  = (book_handler.reply_error 500 "Failed to update book"
       "database operation failed",
     <[1%N := mkRow (runes "Clean Code") (runes "Robert Martin") 2008 3 12]> t)
  /\ book_handler.UpdateBook (postgres.NewPostgresBookRepository e')
       (book_handler.ParsedUUID 2%N) (handlers.Decoded dto) t
     = (book_handler.reply_error 404 "Book not found" "book not found", t).
Proof.
  intros e e' old t dto. split.
  - destruct (X25_UpdateBook_handler_statuses e 1%N dto t eq_refl)
      as (_ & _ & _ & _ & _ & H).
    exact (H old _ _ eq_refl eq_refl eq_refl eq_refl eq_refl).
  - destruct (X25_UpdateBook_handler_statuses e' 2%N dto t eq_refl)
      as (_ & _ & _ & H & _).
    apply H; [split; eexists; reflexivity|reflexivity|discriminate].
Defined.
